(** * bible_parser.py: the markup normalizer and the chapter extractor

    A shallow embedding of [clean_text] and [parse_chapter] of
    [bible_parser.py].  Python strings are sequences of Unicode code
    points, the parsed document is a tree of tags and strings, and the two
    library calls that turn text into a tree and back
    ([BeautifulSoup(html, "html.parser")] and [str(element)]) are the
    two fields of the class [Library].  The general theorems hold for
    every library; [Module Bs4] gives a concrete one, for plain tags,
    quoted attributes and text, on which the scenarios are evaluated.
    [clean_text] and [parse_chapter] work on the tree the parser builds;
    [clean_text_call] and [parse_chapter_call] are the calls themselves,
    with the exception the parser raises on markup it refuses. *)

From Stdlib Require Import Ascii String.
From Stdlib Require Import NArith Bool Arith Lia List.
Import ListNotations.

Local Open Scope N_scope.
Local Open Scope list_scope.

(** ** Python strings *)

(** A [str] is a sequence of code points. *)
Definition pystr := list N.

(** A literal, from its ASCII spelling. *)
Definition py (s : string) : pystr :=
  map N_of_ascii (list_ascii_of_string s).

Arguments py s%_string.

Definition str_eqb (a b : pystr) : bool :=
  if list_eq_dec N.eq_dec a b then true else false.

(** [str.isspace] on one code point, which is also what [\s] matches in a
    [str] pattern and what [str.strip()] removes: the code points of
    bidirectional type WS, B or S and of category Zs. *)
Definition isspace (c : N) : bool :=
  ((9 <=? c) && (c <=? 13)) || ((28 <=? c) && (c <=? 32))
  || (c =? 133) || (c =? 160) || (c =? 5760)
  || ((8192 <=? c) && (c <=? 8202))
  || (c =? 8232) || (c =? 8233) || (c =? 8239) || (c =? 8287)
  || (c =? 12288).

Fixpoint lstrip (s : pystr) : pystr :=
  match s with
  | c :: s' => if isspace c then lstrip s' else s
  | [] => []
  end.

Definition rstrip (s : pystr) : pystr := rev (lstrip (rev s)).

(** [s.strip()] *)
Definition strip (s : pystr) : pystr := rstrip (lstrip s).

(** [re.sub(r"\s{2,}", " ", text)]: every maximal run of two or more
    whitespace code points becomes one space (code point 32); a run of one
    is kept as it is.  [skipping] is true inside a run that has already
    been replaced. *)
Fixpoint re_sub_ws (skipping : bool) (text : pystr) : pystr :=
  match text with
  | [] => []
  | c :: rest =>
      if isspace c then
        if skipping then re_sub_ws true rest
        else
          match rest with
          | d :: _ =>
              if isspace d then 32 :: re_sub_ws true rest
              else c :: re_sub_ws false rest
          | [] => [c]
          end
      else c :: re_sub_ws false rest
  end.

(** [s.startswith(p)] *)
Fixpoint startswith (p s : pystr) : bool :=
  match p, s with
  | [], _ => true
  | a :: p', b :: s' => (a =? b) && startswith p' s'
  | _ :: _, [] => false
  end.

(** [re.sub("^" + re.escape(p), "", s)]: the escaped pattern matches [p]
    literally and [^] anchors it at position 0, so at most one occurrence,
    the leading one, is removed. *)
Definition re_sub_prefix (p s : pystr) : pystr :=
  if startswith p s then skipn (length p) s else s.

(** The two code points that start markup: [<] and [&]. *)
Definition is_markup (c : N) : bool := (c =? 60) || (c =? 38).

(** Splitting on whitespace, as done for the values of the [class]
    attribute ([\S+] tokens). *)
Fixpoint split_ws_aux (cur : pystr) (s : pystr) : list pystr :=
  match s with
  | [] => match cur with [] => [] | _ => [rev cur] end
  | c :: s' =>
      if isspace c then
        match cur with
        | [] => split_ws_aux [] s'
        | _ => rev cur :: split_ws_aux [] s'
        end
      else split_ws_aux (c :: cur) s'
  end.

Definition split_ws (s : pystr) : list pystr := split_ws_aux [] s.

(** ** The parsed document *)

(** A page element of the parse tree: a string, or a tag with its
    attributes (each value as written in the markup) and its contents.
    The [BeautifulSoup] object itself is the tag named [[document]]. *)
#[local] Set Warnings "-register-all".

Inductive node : Type :=
| NavigableString (s : pystr)
| Tag (name : pystr) (attrs : list (pystr * pystr)) (contents : list node).

(** Induction on a tree, with the property known of every child. *)
Fixpoint node_tree_ind (P : node -> Prop)
         (Hs : forall s, P (NavigableString s))
         (Ht : forall nm attrs cs, Forall P cs -> P (Tag nm attrs cs))
         (n : node) : P n :=
  match n with
  | NavigableString s => Hs s
  | Tag nm attrs cs =>
      Ht nm attrs cs
         ((fix children (l : list node) : Forall P l :=
             match l with
             | [] => Forall_nil P
             | c :: l' => Forall_cons c (node_tree_ind P Hs Ht c) (children l')
             end) cs)
  end.

Definition contents_of (n : node) : list node :=
  match n with
  | NavigableString _ => []
  | Tag _ _ cs => cs
  end.

(** [n.name == s] *)
Definition name_is (s : pystr) (n : node) : bool :=
  match n with
  | NavigableString _ => false
  | Tag nm _ _ => str_eqb nm s
  end.

Fixpoint get_attr (k : pystr) (attrs : list (pystr * pystr)) : option pystr :=
  match attrs with
  | [] => None
  | (k', v) :: rest => if str_eqb k' k then Some v else get_attr k rest
  end.

(** The tag carries class [c]: [c] is one of the whitespace-separated
    tokens of its [class] attribute.  This is the test of the CSS selector
    [.c] and of [find_all(..., class_=c)]. *)
Definition has_class (c : pystr) (n : node) : bool :=
  match n with
  | NavigableString _ => false
  | Tag _ attrs _ =>
      match get_attr (py "class") attrs with
      | Some v => existsb (str_eqb c) (split_ws v)
      | None => false
      end
  end.

(** [n.get_text()]: the strings below [n], in document order, joined. *)
Fixpoint get_text (n : node) : pystr :=
  match n with
  | NavigableString s => s
  | Tag _ _ cs => flat_map get_text cs
  end.

(** [n.get_text(strip=True)]: each string is stripped on its own, the
    empty ones are skipped, and the rest are joined. *)
Fixpoint get_text_strip (n : node) : pystr :=
  match n with
  | NavigableString s => strip s
  | Tag _ _ cs => flat_map get_text_strip cs
  end.

(** [for tag in n.find_all(p): tag.decompose()]: every descendant of [n]
    that satisfies [p] is removed with its subtree. *)
Fixpoint decompose_all (p : node -> bool) (n : node) : node :=
  match n with
  | NavigableString _ => n
  | Tag nm attrs cs =>
      Tag nm attrs
        (flat_map (fun c => if p c then [] else [decompose_all p c]) cs)
  end.

Definition is_emphasis (n : node) : bool :=
  name_is (py "i") n || name_is (py "em") n.

(** [for tag in n.find_all(["i", "em"]): tag.replace_with(f"*{tag.get_text()}*")].
    The list of tags is taken before the loop starts, in document order,
    so an outermost [i] or [em] is replaced by its starred text first; an
    [i] or [em] nested in it is then replaced inside the detached subtree,
    which the document no longer sees. *)
Fixpoint replace_emphasis (n : node) : node :=
  match n with
  | NavigableString _ => n
  | Tag nm attrs cs =>
      Tag nm attrs
        (map (fun c =>
                if is_emphasis c
                then NavigableString (py "*" ++ get_text c ++ py "*")
                else replace_emphasis c) cs)
  end.

(** The descendants of [n] that satisfy [p], in document order. *)
Fixpoint find_all (p : node -> bool) (n : node) : list node :=
  match n with
  | NavigableString _ => []
  | Tag _ _ cs =>
      flat_map (fun c => (if p c then [c] else []) ++ find_all p c) cs
  end.

(** A tag handed out by [select], with its chain of parents, nearest
    first, as [element.parents] lists them; the last one is the
    [BeautifulSoup] object. *)
Record element : Type := mk_element {
  el_node : node;
  el_parents : list node
}.

(** [element.parent], [None] for a detached element. *)
Definition parent (el : element) : option node := hd_error (el_parents el).

(** The selector group [.passage-content .text, h3 .text]: a tag of class
    [text] with an ancestor of class [passage-content] or an ancestor
    named [h3]. *)
Definition matches_selector (n : node) (parents : list node) : bool :=
  has_class (py "text") n
  && existsb (fun a => has_class (py "passage-content") a
                       || name_is (py "h3") a) parents.

(** The matches at and below [n], in document order. *)
Fixpoint select_from (parents : list node) (n : node) : list element :=
  match n with
  | NavigableString _ => []
  | Tag _ _ cs =>
      (if matches_selector n parents then [mk_element n parents] else [])
      ++ flat_map (select_from (n :: parents)) cs
  end.

(** [soup.select(".passage-content .text, h3 .text")] *)
Definition select (soup : node) : list element :=
  flat_map (select_from [soup]) (contents_of soup).

(** [element.select_one(".versenum")] *)
Definition select_one_versenum (n : node) : option node :=
  hd_error (find_all (has_class (py "versenum")) n).

(** ** Results of the extractor *)

(** The dictionaries [{"type": "subtitle", "text": ...}] and
    [{"type": "verse", "verse_number": ..., "text": ...}]. *)
Inductive Element : Type :=
| Subtitle (text : pystr)
| Verse (verse_number : pystr) (text : pystr).

Definition is_verse (e : Element) : bool :=
  match e with Verse _ _ => true | Subtitle _ => false end.

Definition text_of (e : Element) : pystr :=
  match e with Subtitle t => t | Verse _ t => t end.

(** [e["text"] += s] *)
Definition append_text (s : pystr) (e : Element) : Element :=
  match e with
  | Subtitle t => Subtitle (t ++ s)
  | Verse n t => Verse n (t ++ s)
  end.

(** The exceptions the program can meet: those of the operations of the
    loop, and the one [BeautifulSoup] raises on markup its parser
    refuses. *)
Inductive exn : Type := AttributeError | IndexError | ParserRejectedMarkup.

Inductive result (A : Type) : Type :=
| Ok (a : A)
| Raise (e : exn).

Arguments Ok {A} a.
Arguments Raise {A} e.

Definition bind {A B : Type} (m : result A) (f : A -> result B) : result B :=
  match m with
  | Ok a => f a
  | Raise e => Raise e
  end.

Notation "x <- m ;; k" := (bind m (fun x => k))
  (at level 61, m at next level, right associativity).

(** [elements[-1]] *)
Definition index_last {A : Type} (l : list A) : result A :=
  match nth_error l (length l - 1) with
  | Some a => Ok a
  | None => Raise IndexError
  end.

(** The in-place update of [elements[-1]]. *)
Definition update_last {A : Type} (f : A -> A) (l : list A) : list A :=
  firstn (length l - 1) l ++ map f (skipn (length l - 1) l).

(** The state of the loop of [parse_chapter]: [elements] and
    [first_verse_found]. *)
Definition loop_state : Type := (list Element * bool)%type.

(** The two calls of the library that read and write markup text:
    [html_parser html] is the top-level contents of
    [BeautifulSoup(html, "html.parser")], and [node_str element] is
    [str(element)]. *)
Class Library : Type := {
  html_parser : pystr -> list node;
  node_str : node -> pystr
}.

Section Extractor.

Context {lib : Library}.

Definition BeautifulSoup (html : pystr) : node :=
  Tag (py "[document]") [] (html_parser html).

Definition is_sup (n : node) : bool := name_is (py "sup") n.

Definition is_chapternum (n : node) : bool :=
  name_is (py "span") n && has_class (py "chapternum") n.

Definition clean_text (html : pystr) : pystr :=
  let soup := BeautifulSoup html in
  let soup := decompose_all is_sup soup in
  let soup := decompose_all is_chapternum soup in
  let soup := replace_emphasis soup in
  let text := get_text soup in
  strip (re_sub_ws false text).

(** [element.name == "span" and element.parent.name == "h3"]: the
    parent is looked at only when the name is [span]. *)
Definition is_heading (el : element) : result bool :=
  if name_is (py "span") (el_node el) then
    match parent el with
    | Some p => Ok (name_is (py "h3") p)
    | None => Raise AttributeError
    end
  else Ok false.

(** One iteration of the [for] loop of [parse_chapter]. *)
Definition loop_body (st : loop_state) (el : element) : result loop_state :=
  let '(elements, first_verse_found) := st in
  heading <- is_heading el ;;
  if heading then
    Ok (elements ++ [Subtitle (clean_text (node_str (el_node el)))],
        first_verse_found)
  else
    let verse_tag := select_one_versenum (el_node el) in
    let cleaned_text := clean_text (node_str (el_node el)) in
    match verse_tag with
    | Some tag =>
        let verse_number := get_text_strip tag in
        let verse_content :=
          strip (re_sub_prefix verse_number cleaned_text) in
        Ok (elements ++ [Verse verse_number verse_content], true)
    | None =>
        if negb first_verse_found then
          Ok (elements ++ [Verse (py "1") (strip cleaned_text)], true)
        else
          match elements with
          | [] => Ok (elements, first_verse_found)
          | _ :: _ =>
              last <- index_last elements ;;
              if is_verse last then
                Ok (update_last (append_text (32 :: cleaned_text)) elements,
                    first_verse_found)
              else Ok (elements, first_verse_found)
          end
    end.

Fixpoint for_loop (els : list element) (st : loop_state) : result loop_state :=
  match els with
  | [] => Ok st
  | el :: rest => st' <- loop_body st el ;; for_loop rest st'
  end.

(** The line printed for one element when [verbose] is set. *)
Definition verbose_line (e : Element) : pystr :=
  let label :=
    match e with
    | Subtitle _ => py "Subtitle"
    | Verse n _ => py "Verse " ++ n
    end in
  label ++ py ": " ++ firstn 40 (text_of e) ++ py "...".

(** [parse_chapter(html, verbose)], run with the lines printed so far;
    it returns the elements, or the exception raised, and the lines
    printed when it is left. *)
Definition parse_chapter (html : pystr) (verbose : bool)
           (stdout : list pystr) : result (list Element) * list pystr :=
  let soup := BeautifulSoup html in
  match for_loop (select soup) ([], false) with
  | Raise e => (Raise e, stdout)
  | Ok (elements, _) =>
      (Ok elements,
       if verbose
       then stdout ++ py "== Parsed Chapter ==" :: map verbose_line elements
       else stdout)
  end.

End Extractor.

(** ** The calls, with the exceptions of the parser

    [BeautifulSoup(html, "html.parser")] does not accept every string: on
    some markup its parser raises ([ParserRejectedMarkup] on [<![a[]).
    [parser_raises html] is the exception of that call, if it raises;
    [html_parser html] is the tree it builds when it does not.  The
    functions below are [clean_text] and [parse_chapter] as they are
    called, every [BeautifulSoup] call included; nothing in the source
    catches an exception, so the first one raised ends the call. *)
Class ParserErrors : Type := {
  parser_raises : pystr -> option exn
}.

Section Calls.

Context {lib : Library} {errors : ParserErrors}.

Definition BeautifulSoup_call (html : pystr) : result node :=
  match parser_raises html with
  | Some e => Raise e
  | None => Ok (BeautifulSoup html)
  end.

Definition clean_text_call (html : pystr) : result pystr :=
  soup <- BeautifulSoup_call html ;;
  let soup := decompose_all is_sup soup in
  let soup := decompose_all is_chapternum soup in
  let soup := replace_emphasis soup in
  let text := get_text soup in
  Ok (strip (re_sub_ws false text)).

Definition loop_body_call (st : loop_state) (el : element)
  : result loop_state :=
  let '(elements, first_verse_found) := st in
  heading <- is_heading el ;;
  if heading then
    text <- clean_text_call (node_str (el_node el)) ;;
    Ok (elements ++ [Subtitle text], first_verse_found)
  else
    let verse_tag := select_one_versenum (el_node el) in
    cleaned_text <- clean_text_call (node_str (el_node el)) ;;
    match verse_tag with
    | Some tag =>
        let verse_number := get_text_strip tag in
        let verse_content :=
          strip (re_sub_prefix verse_number cleaned_text) in
        Ok (elements ++ [Verse verse_number verse_content], true)
    | None =>
        if negb first_verse_found then
          Ok (elements ++ [Verse (py "1") (strip cleaned_text)], true)
        else
          match elements with
          | [] => Ok (elements, first_verse_found)
          | _ :: _ =>
              last <- index_last elements ;;
              if is_verse last then
                Ok (update_last (append_text (32 :: cleaned_text)) elements,
                    first_verse_found)
              else Ok (elements, first_verse_found)
          end
    end.

Fixpoint for_loop_call (els : list element) (st : loop_state)
  : result loop_state :=
  match els with
  | [] => Ok st
  | el :: rest => st' <- loop_body_call st el ;; for_loop_call rest st'
  end.

Definition parse_chapter_call (html : pystr) (verbose : bool)
           (stdout : list pystr) : result (list Element) * list pystr :=
  match BeautifulSoup_call html with
  | Raise e => (Raise e, stdout)
  | Ok soup =>
      match for_loop_call (select soup) ([], false) with
      | Raise e => (Raise e, stdout)
      | Ok (elements, _) =>
          (Ok elements,
           if verbose
           then stdout ++ py "== Parsed Chapter ==" :: map verbose_line elements
           else stdout)
      end
  end.

End Calls.

(** ** A model of the library: the [html.parser] tree builder and [str]

    The model covers markup made of text, start tags with quoted or
    valueless attributes, empty-element tags, end tags and the character
    references [&amp;], [&lt;], [&gt;] and [&quot;].  Everything else
    (comments, declarations, processing instructions, unquoted attribute
    values, other references, [script], [style], [template], [rt] and
    [rp], an end tag with no open tag of its name, an unterminated tag) is
    outside the model: [parse] answers [None] there.  Of the markup the
    parser refuses the model knows one kind, a marked section [<![name]
    whose name is no keyword ([refused]). *)
Module Bs4.

Inductive token : Type :=
| StartTag (name : pystr) (attrs : list (pystr * pystr)) (startend : bool)
| EndTag (name : pystr)
| Data (s : pystr).

Fixpoint span_until (stop : N -> bool) (s : pystr) : pystr * pystr :=
  match s with
  | [] => ([], [])
  | c :: s' =>
      if stop c then ([], s)
      else let (a, b) := span_until stop s' in (c :: a, b)
  end.

Definition is_ascii_letter (c : N) : bool :=
  ((65 <=? c) && (c <=? 90)) || ((97 <=? c) && (c <=? 122)).

Definition is_ascii_digit (c : N) : bool := (48 <=? c) && (c <=? 57).

Definition ascii_lower (c : N) : N :=
  if (65 <=? c) && (c <=? 90) then c + 32 else c.

(** The characters that end a tag name: tab, newline, form feed,
    carriage return, space, [/], [>] and NUL. *)
Definition ends_tag_name (c : N) : bool :=
  (c =? 9) || (c =? 10) || (c =? 12) || (c =? 13) || (c =? 32)
  || (c =? 47) || (c =? 62) || (c =? 0).

Definition ends_attr_name (c : N) : bool :=
  isspace c || (c =? 47) || (c =? 62) || (c =? 61).

Definition is_end_tag_char (c : N) : bool :=
  is_ascii_letter c || is_ascii_digit c
  || (c =? 45) || (c =? 46) || (c =? 58) || (c =? 95).

(** A name is lowercased; the model keeps to names spelt in ASCII. *)
Definition lower_name (s : pystr) : option pystr :=
  if forallb (fun c => c <? 128) s then Some (map ascii_lower s) else None.

(** The reference that starts after an [&]. *)
Definition scan_charref (s : pystr) : option (N * pystr) :=
  if startswith (py "amp;") s then Some (38, skipn 4 s)
  else if startswith (py "lt;") s then Some (60, skipn 3 s)
  else if startswith (py "gt;") s then Some (62, skipn 3 s)
  else if startswith (py "quot;") s then Some (34, skipn 5 s)
  else None.

(** An attribute value with its references replaced. *)
Fixpoint unescape (fuel : nat) (s : pystr) : option pystr :=
  match s with
  | [] => Some []
  | c :: s' =>
      match fuel with
      | O => None
      | S f =>
          if c =? 38 then
            match scan_charref s' with
            | Some (ch, rest) => option_map (cons ch) (unescape f rest)
            | None => None
            end
          else option_map (cons c) (unescape f s')
      end
  end.

(** A later attribute of the same name replaces the value of the
    earlier one. *)
Fixpoint set_attr (k v : pystr) (attrs : list (pystr * pystr))
  : list (pystr * pystr) :=
  match attrs with
  | [] => [(k, v)]
  | (k', v') :: rest =>
      if str_eqb k' k then (k', v) :: rest
      else (k', v') :: set_attr k v rest
  end.

(** The attributes of a start tag and its end, [>] or [/>]; [s] starts
    after the tag name. *)
Fixpoint scan_attrs (fuel : nat) (s : pystr) (acc : list (pystr * pystr))
  : option (list (pystr * pystr) * bool * pystr) :=
  match fuel with
  | O => None
  | S f =>
      match lstrip s with
      | [] => None
      | 62 :: rest => Some (acc, false, rest)
      | 47 :: 62 :: rest => Some (acc, true, rest)
      | s1 =>
          let (raw, s2) := span_until ends_attr_name s1 in
          match raw, lower_name raw with
          | _ :: _, Some k =>
              match lstrip s2 with
              | 61 :: s3 =>
                  match lstrip s3 with
                  | q :: s4 =>
                      if (q =? 34) || (q =? 39) then
                        let (v, s5) := span_until (N.eqb q) s4 in
                        match s5, unescape (length v) v with
                        | _ :: s6, Some v' => scan_attrs f s6 (set_attr k v' acc)
                        | _, _ => None
                        end
                      else None
                  | [] => None
                  end
              | _ => scan_attrs f s2 (set_attr k [] acc)
              end
          | _, _ => None
          end
      end
  end.

Definition raw_text_names : list pystr :=
  [py "script"; py "style"; py "template"; py "rt"; py "rp"].

(** A start tag; [s] starts at the first letter of its name. *)
Definition scan_start_tag (s : pystr) : option (token * pystr) :=
  let (raw, s1) := span_until ends_tag_name s in
  match lower_name raw with
  | Some nm =>
      if existsb (str_eqb nm) raw_text_names then None
      else
        match scan_attrs (length s1) s1 [] with
        | Some (attrs, startend, rest) => Some (StartTag nm attrs startend, rest)
        | None => None
        end
  | None => None
  end.

(** An end tag; [s] starts after [</]. *)
Definition scan_end_tag (s : pystr) : option (pystr * pystr) :=
  let (raw, s1) := span_until (fun c => negb (is_end_tag_char c)) s in
  match raw with
  | c :: _ =>
      if is_ascii_letter c then
        match lstrip s1 with
        | 62 :: rest => Some (map ascii_lower raw, rest)
        | _ => None
        end
      else None
  | [] => None
  end.

(** The events the parser sends to the tree builder. *)
Fixpoint lex (fuel : nat) (s : pystr) : option (list token) :=
  match s with
  | [] => Some []
  | c :: s' =>
      match fuel with
      | O => None
      | S f =>
          if c =? 60 then
            match s' with
            | [] => None
            | d :: s'' =>
                if is_ascii_letter d then
                  match scan_start_tag s' with
                  | Some (tok, rest) => option_map (cons tok) (lex f rest)
                  | None => None
                  end
                else if d =? 47 then
                  match scan_end_tag s'' with
                  | Some (nm, rest) => option_map (cons (EndTag nm)) (lex f rest)
                  | None => None
                  end
                else if (d =? 33) || (d =? 63) then None
                else option_map (cons (Data [60])) (lex f s')
            end
          else if c =? 38 then
            match scan_charref s' with
            | Some (ch, rest) => option_map (cons (Data [ch])) (lex f rest)
            | None => None
            end
          else
            let (txt, rest) := span_until is_markup s in
            option_map (cons (Data txt)) (lex f rest)
      end
  end.

(** An open tag of the builder's stack, its contents latest first. *)
Record frame : Type := mk_frame {
  fr_name : pystr;
  fr_attrs : list (pystr * pystr);
  fr_rev : list node
}.

Definition add_children (ns : list node) (f : frame) : frame :=
  mk_frame (fr_name f) (fr_attrs f) (ns ++ fr_rev f).

Definition close_frame (f : frame) : node :=
  Tag (fr_name f) (fr_attrs f) (rev (fr_rev f)).

(** A parsed object goes to the innermost open tag, or to the document. *)
Definition attach (n : node) (stack : list frame) (root_rev : list node)
  : list frame * list node :=
  match stack with
  | [] => ([], n :: root_rev)
  | f :: fs => (add_children [n] f :: fs, root_rev)
  end.

Definition is_ascii_space (c : N) : bool :=
  (c =? 32) || (c =? 10) || (c =? 9) || (c =? 12) || (c =? 13).

Definition preserves_whitespace (stack : list frame) : bool :=
  existsb (fun f => str_eqb (fr_name f) (py "pre")
                    || str_eqb (fr_name f) (py "textarea")) stack.

(** [endData]: the text collected since the last tag becomes one
    string; outside [pre] and [textarea], text made of ASCII spaces only
    becomes a single newline or space. *)
Definition end_data (data : pystr) (stack : list frame) (root_rev : list node)
  : list frame * list node :=
  match data with
  | [] => (stack, root_rev)
  | _ :: _ =>
      let data' :=
        if forallb is_ascii_space data && negb (preserves_whitespace stack)
        then (if existsb (N.eqb 10) data then [10] else [32])
        else data in
      attach (NavigableString data') stack root_rev
  end.

Definition void_names : list pystr :=
  [py "area"; py "base"; py "br"; py "col"; py "embed"; py "hr";
   py "img"; py "input"; py "keygen"; py "link"; py "menuitem";
   py "meta"; py "param"; py "source"; py "track"; py "wbr";
   py "basefont"; py "bgsound"; py "command"; py "frame"; py "image";
   py "isindex"; py "nextid"; py "spacer"].

Definition is_void (nm : pystr) : bool := existsb (str_eqb nm) void_names.

(** [_popToTag]: the open tags are closed down to the nearest one named
    [nm], which is returned closed with what is left of the stack. *)
Fixpoint pop_to (nm : pystr) (pending : list node) (stack : list frame)
  : option (node * list frame) :=
  match stack with
  | [] => None
  | f :: fs =>
      let f' := add_children pending f in
      if str_eqb (fr_name f) nm then Some (close_frame f', fs)
      else pop_to nm [close_frame f'] fs
  end.

(** At the end of the input every open tag is closed. *)
Fixpoint close_all (pending : list node) (stack : list frame) : list node :=
  match stack with
  | [] => pending
  | f :: fs => close_all [close_frame (add_children pending f)] fs
  end.

(** The tree builder; it returns the contents of the document and the
    names of the tags still open at the end of the input, innermost
    first. *)
Fixpoint build (toks : list token) (data : pystr) (stack : list frame)
         (root_rev : list node) : option (list node * list pystr) :=
  match toks with
  | [] =>
      let (stack, root_rev) := end_data data stack root_rev in
      Some (rev (close_all [] stack ++ root_rev), map fr_name stack)
  | Data d :: rest => build rest (data ++ d) stack root_rev
  | StartTag nm attrs startend :: rest =>
      let (stack, root_rev) := end_data data stack root_rev in
      if startend || is_void nm then
        let (stack, root_rev) := attach (Tag nm attrs []) stack root_rev in
        build rest [] stack root_rev
      else build rest [] (mk_frame nm attrs [] :: stack) root_rev
  | EndTag nm :: rest =>
      if is_void nm || existsb (str_eqb nm) raw_text_names then None
      else
        let (stack, root_rev) := end_data data stack root_rev in
        match pop_to nm [] stack with
        | Some (n, stack') =>
            let (stack, root_rev) := attach n stack' root_rev in
            build rest [] stack root_rev
        | None => None
        end
  end.

Definition parse (html : pystr) : option (list node * list pystr) :=
  match lex (length html) html with
  | Some toks => build toks [] [] []
  | None => None
  end.

(** [BeautifulSoup(html, "html.parser").contents] *)
Definition html_parser (html : pystr) : list node :=
  match parse html with
  | Some (ns, _) => ns
  | None => []
  end.


(** The output formatter: [&], [<] and [>] are written as references. *)
Definition escape (s : pystr) : pystr :=
  flat_map (fun c => if c =? 38 then py "&amp;"
                     else if c =? 60 then py "&lt;"
                     else if c =? 62 then py "&gt;"
                     else [c]) s.

Fixpoint join_space (l : list pystr) : pystr :=
  match l with
  | [] => []
  | [a] => a
  | a :: rest => a ++ 32 :: join_space rest
  end.

(** One attribute, [ key="value"]; the classes are written separated by
    single spaces, and the quote is chosen by what the value holds. *)
Definition attr_str (kv : pystr * pystr) : pystr :=
  let (k, v) := kv in
  let v := if str_eqb k (py "class") then join_space (split_ws v) else v in
  let v := escape v in
  let quoted :=
    if existsb (N.eqb 34) v then
      if existsb (N.eqb 39) v
      then 34 :: flat_map (fun c => if c =? 34 then py "&quot;" else [c]) v
              ++ [34]
      else 39 :: v ++ [39]
    else 34 :: v ++ [34] in
  32 :: k ++ 61 :: quoted.

(** [str(element)] *)
Fixpoint node_str (n : node) : pystr :=
  match n with
  | NavigableString s => escape s
  | Tag nm attrs cs =>
      py "<" ++ nm ++ flat_map attr_str attrs
      ++ match cs with
         | [] => if is_void nm then py "/>"
                 else py "></" ++ nm ++ py ">"
         | _ :: _ => py ">" ++ flat_map node_str cs ++ py "</" ++ nm ++ py ">"
         end
  end.

(** The model as a library, and the program over it. *)
Definition library : Library :=
  Build_Library html_parser node_str.

Definition clean_text : pystr -> pystr := @clean_text library.

Definition loop_body : loop_state -> element -> result loop_state :=
  @loop_body library.

Definition parse_chapter
  : pystr -> bool -> list pystr -> result (list Element) * list pystr :=
  @parse_chapter library.

(** A double-quoted word, as in [class="text"]. *)
Definition quoted (s : string) : pystr := 34 :: py s ++ [34].

(** The keywords a marked section may start with. *)
Definition marked_section_names : list pystr :=
  [py "temp"; py "cdata"; py "ignore"; py "include"; py "rcdata";
   py "if"; py "else"; py "endif"].

Definition is_decl_name_char (c : N) : bool :=
  is_ascii_letter c || is_ascii_digit c
  || (c =? 45) || (c =? 95) || (c =? 46).

(** The parser's check of a marked section; [s] starts after [<![].  A
    name must follow: without one, or with one that is no keyword, the
    parser gives up on the markup.  A section cut by the end of the input
    is not refused. *)
Definition marked_section_refused (s : pystr) : bool :=
  match s with
  | [] => false
  | c :: _ =>
      if is_ascii_letter c then
        let (name, s1) := span_until (fun x => negb (is_decl_name_char x)) s in
        match lstrip s1 with
        | [] => false
        | _ :: _ =>
            negb (existsb (str_eqb (map ascii_lower name))
                          marked_section_names)
        end
      else true
  end.

(** The markup holds, where the parser reads text, a marked section it
    refuses.  The walk is the one of [lex]; it stops, without a refusal,
    where the markup leaves the model. *)
Fixpoint refused (fuel : nat) (s : pystr) : bool :=
  match s with
  | [] => false
  | c :: s' =>
      match fuel with
      | O => false
      | S f =>
          if c =? 60 then
            match s' with
            | [] => false
            | d :: s'' =>
                if is_ascii_letter d then
                  match scan_start_tag s' with
                  | Some (_, rest) => refused f rest
                  | None => false
                  end
                else if d =? 47 then
                  match scan_end_tag s'' with
                  | Some (_, rest) => refused f rest
                  | None => false
                  end
                else if d =? 33 then
                  match s'' with
                  | 91 :: s3 => marked_section_refused s3
                  | _ => false
                  end
                else if d =? 63 then false
                else refused f s'
            end
          else if c =? 38 then
            match scan_charref s' with
            | Some (_, rest) => refused f rest
            | None => false
            end
          else
            let (_, rest) := span_until is_markup s in
            refused f rest
      end
  end.

(** The exception of [BeautifulSoup(html, "html.parser")]: the tree
    builder turns the parser's refusal into [ParserRejectedMarkup]. *)
Definition parser_raises (html : pystr) : option exn :=
  if refused (length html) html then Some ParserRejectedMarkup else None.

Definition errors : ParserErrors := Build_ParserErrors parser_raises.

Definition clean_text_call : pystr -> result pystr :=
  @clean_text_call library errors.

Definition parse_chapter_call
  : pystr -> bool -> list pystr -> result (list Element) * list pystr :=
  @parse_chapter_call library errors.

End Bs4.

(** ** Predicates of the statements *)

(** Two whitespace code points in a row somewhere in [s]. *)
Fixpoint has_ws_run (s : pystr) : bool :=
  match s with
  | c :: (d :: _) as rest => (isspace c && isspace d) || has_ws_run rest
  | _ => false
  end.

Definition starts_ws (s : pystr) : bool :=
  match s with
  | c :: _ => isspace c
  | [] => false
  end.

Definition ends_ws (s : pystr) : bool := starts_ws (rev s).

(** The text is as the normalizer leaves it. *)
Definition normalized (s : pystr) : Prop :=
  has_ws_run s = false /\ starts_ws s = false /\ ends_ws s = false.

(** ** Documents of the examples *)

(** The fragment of the concrete scenario: a heading, then a tag of class
    [text] with a footnote marker, the verse number 1 and the verse. *)
Definition scenario_fragment : pystr :=
  py "<h3><span class=" ++ Bs4.quoted "text" ++ py ">Heading</span></h3>"
  ++ py "<span class=" ++ Bs4.quoted "text" ++ py "><sup>a</sup>"
  ++ py "<span class=" ++ Bs4.quoted "versenum" ++ py ">1</span>"
  ++ py "In the beginning...</span>".

(** The same fragment as the content of a passage. *)
Definition scenario_passage : pystr :=
  py "<div class=" ++ Bs4.quoted "passage-content" ++ py ">"
  ++ scenario_fragment ++ py "</div>".


(** Verse 3 and a continuation of it. *)
Definition continued_passage : pystr :=
  py "<div class=" ++ Bs4.quoted "passage-content" ++ py ">"
  ++ py "<span class=" ++ Bs4.quoted "text" ++ py ">"
  ++ py "<span class=" ++ Bs4.quoted "versenum" ++ py ">3 </span>"
  ++ py "Then</span>"
  ++ py "<span class=" ++ Bs4.quoted "text" ++ py ">and God said</span>"
  ++ py "</div>".

(** A heading, a first verse without a number, a verse numbered 1 and a
    continuation. *)
Definition unnumbered_passage : pystr :=
  py "<div class=" ++ Bs4.quoted "passage-content" ++ py ">"
  ++ py "<h3><span class=" ++ Bs4.quoted "text" ++ py ">Heading</span></h3>"
  ++ py "<span class=" ++ Bs4.quoted "text" ++ py ">In the beginning</span>"
  ++ py "<span class=" ++ Bs4.quoted "text" ++ py ">"
  ++ py "<span class=" ++ Bs4.quoted "versenum" ++ py ">1</span>"
  ++ py "God created</span>"
  ++ py "<span class=" ++ Bs4.quoted "text" ++ py ">the heavens</span>"
  ++ py "</div>".

(** The tags [select] finds in a document, and the one at index [i]. *)
Definition selected (html : pystr) : list element :=
  select (@BeautifulSoup Bs4.library html).

Definition selected_at (html : pystr) (i : nat) : element :=
  nth i (selected html) (mk_element (NavigableString []) []).

(** ** Notions of the further statements *)

(** The code points of [s] that are not whitespace, in order. *)
Definition non_ws (s : pystr) : pystr :=
  filter (fun c => negb (isspace c)) s.

(** A tag that makes its descendants of class [text] selectable. *)
Definition is_container (n : node) : bool :=
  has_class (py "passage-content") n || name_is (py "h3") n.

(** A tag that one of the three loops of [clean_text] looks for. *)
Definition is_decoration (n : node) : bool :=
  is_sup n || is_chapternum n || is_emphasis n.

(** The test of line 62, for a tag that has a parent. *)
Definition is_heading_tag (el : element) : bool :=
  match is_heading el with
  | Ok b => b
  | Raise _ => false
  end.

Definition has_marker (el : element) : bool :=
  match select_one_versenum (el_node el) with
  | Some _ => true
  | None => false
  end.

(** The verse number a marker gives. *)
Definition marker_number (el : element) : pystr :=
  match select_one_versenum (el_node el) with
  | Some tag => get_text_strip tag
  | None => []
  end.

(** The selected tags that are not headings. *)
Definition content_tags (els : list element) : list element :=
  filter (fun el => negb (is_heading_tag el)) els.

Definition heading_tags (els : list element) : list element :=
  filter is_heading_tag els.

Definition verse_numbers (es : list Element) : list pystr :=
  flat_map (fun e => match e with Verse n _ => [n] | Subtitle _ => [] end) es.

Definition subtitles (es : list Element) : list Element :=
  filter (fun e => negb (is_verse e)) es.

(** The number the implicit branch gives: ["1"], when the flag is not set
    and the first tag that is not a heading holds no marker. *)
Definition implicit_number (found : bool) (els : list element) : list pystr :=
  if found then []
  else
    match content_tags els with
    | c :: _ => if has_marker c then [] else [py "1"]
    | [] => []
    end.

(** A test that looks at the name and the attributes of a tag only. *)
Definition shallow (p : node -> bool) : Prop :=
  forall nm attrs cs cs', p (Tag nm attrs cs) = p (Tag nm attrs cs').

Section Prepared.

Context {lib : Library}.

(** The tree whose text [clean_text] extracts: the document after the
    three loops of lines 42 to 47. *)
Definition prepared_soup (html : pystr) : node :=
  replace_emphasis
    (decompose_all is_chapternum
       (decompose_all is_sup (BeautifulSoup html))).

End Prepared.

(** ** The fetch and the command line *)

Definition DEFAULT_VERSION : pystr := py "NKJV".
Definition FETCH_READ_TIMEOUT : N := 10.
Definition FETCH_OPEN_TIMEOUT : N := 30.

(** A call of [requests.get]: the address, the query parameters in the
    order of the dictionary, and the timeouts (connect, read). *)
Record Request : Type := mk_request {
  req_url : pystr;
  req_params : list (pystr * pystr);
  req_timeout : N * N
}.

Record Response : Type := mk_response {
  status_code : N;
  response_text : pystr
}.

(** What a run finds outside the program.  [read_file name] is
    [open(name, encoding="utf-8").read()], [None] when it raises;
    [requests_get] answers with a response or with the text of the
    [RequestException] it raises; [http_error] is the text of the
    [HTTPError] of a response with an error status; [repr_params] is how
    the dictionary of parameters prints. *)
Record World : Type := mk_world {
  read_file : pystr -> option pystr;
  requests_get : Request -> pystr + Response;
  http_error : Request -> Response -> pystr;
  repr_params : list (pystr * pystr) -> pystr
}.

(** How a call ends: it returns, it leaves through [sys.exit(message)],
    or an exception it does not catch goes through. *)
Inductive Outcome (A : Type) : Type :=
| Returned (a : A)
| SystemExit (message : pystr)
| Uncaught.

Arguments Returned {A} a.
Arguments SystemExit {A} message.
Arguments Uncaught {A}.

(** The end of a call, the lines it printed and the requests it made. *)
Definition Run (A : Type) : Type :=
  (Outcome A * list pystr * list Request)%type.

Definition passage_url : pystr := py "https://www.biblegateway.com/passage/".

(** [response.raise_for_status()] raises for the statuses 400 to 599. *)
Definition is_error_status (status : N) : bool :=
  (400 <=? status) && (status <? 600).

(** [fetch_html(reference, version, filename, verbose)]; [filename] is
    [None] or a string, and the empty string is false like [None]. *)
Definition fetch_html (w : World) (reference version : pystr)
           (filename : option pystr) (verbose : bool) : Run pystr :=
  match filename with
  | Some ((_ :: _) as name) =>
      let printed :=
        if verbose then [py "Reading from local file: " ++ name] else [] in
      (match read_file w name with
       | Some content => Returned content
       | None => Uncaught
       end, printed, [])
  | _ =>
      let url := passage_url in
      let params := [(py "search", reference); (py "version", version);
                     (py "interface", py "print")] in
      let printed :=
        if verbose
        then [py "Fetching " ++ url ++ py " with params: "
                 ++ repr_params w params]
        else [] in
      let request :=
        mk_request url params (FETCH_OPEN_TIMEOUT, FETCH_READ_TIMEOUT) in
      (match requests_get w request with
       | inr response =>
           if is_error_status (status_code response)
           then SystemExit (py "Error fetching data: "
                               ++ http_error w request response)
           else Returned (response_text response)
       | inl error => SystemExit (py "Error fetching data: " ++ error)
       end, printed, [request])
  end.



Section Main.

Context {lib : Library} {errors : ParserErrors}.


End Main.

(** A world with one readable file, which holds the passage of the
    scenario, and no network. *)
Definition example_world : World :=
  mk_world
    (fun name => if str_eqb name (py "john1.html")
                 then Some scenario_passage else None)
    (fun _ => inl (py "connection refused"))
    (fun _ _ => [])
    (fun _ => []).


(** The chapter of [unnumbered_passage]. *)
Definition unnumbered_chapter : list Element :=
  [Subtitle (py "Heading");
   Verse (py "1") (py "In the beginning");
   Verse (py "1") (py "God created the heavens")].

(** The same files as [example_world], with a network that answers. *)
Definition example_world_online : World :=
  mk_world (read_file example_world)
           (fun _ => inr (mk_response 200 scenario_fragment))
           (fun _ _ => py "error")
           (fun _ => py "{}").




(** ** Whitespace *)

Lemma lstrip_split (s : pystr) :
  exists w, s = w ++ lstrip s /\ forallb isspace w = true.
Proof.
  induction s as [|c s IH]; simpl.
  - exists []. split; reflexivity.
  - destruct (isspace c) eqn:Hc.
    + destruct IH as [w [Hs Hw]]. exists (c :: w). simpl.
      rewrite Hc, Hw. split; [f_equal; exact Hs | reflexivity].
    + exists []. split; reflexivity.
Qed.

Lemma starts_ws_lstrip (s : pystr) : starts_ws (lstrip s) = false.
Proof.
  induction s as [|c s IH]; simpl; [reflexivity|].
  destruct (isspace c) eqn:Hc; [exact IH | simpl; exact Hc].
Qed.

Lemma lstrip_fixed (s : pystr) : starts_ws s = false -> lstrip s = s.
Proof.
  destruct s as [|c s]; simpl; [reflexivity|]. intros ->. reflexivity.
Qed.

Lemma rstrip_split (s : pystr) :
  exists w, s = rstrip s ++ w /\ forallb isspace w = true.
Proof.
  unfold rstrip. destruct (lstrip_split (rev s)) as [w [Hs Hw]].
  exists (rev w). split.
  - rewrite <- rev_app_distr, <- Hs, rev_involutive. reflexivity.
  - rewrite forallb_forall in *. intros x Hx. apply Hw, in_rev, Hx.
Qed.

Lemma rstrip_fixed (s : pystr) : ends_ws s = false -> rstrip s = s.
Proof.
  unfold ends_ws, rstrip. intros H.
  rewrite (lstrip_fixed _ H). apply rev_involutive.
Qed.

Lemma strip_fixed (s : pystr) :
  starts_ws s = false -> ends_ws s = false -> strip s = s.
Proof.
  intros Hs He. unfold strip. rewrite (lstrip_fixed _ Hs).
  apply rstrip_fixed, He.
Qed.

Lemma ends_ws_rstrip (s : pystr) : ends_ws (rstrip s) = false.
Proof.
  unfold ends_ws, rstrip. rewrite rev_involutive. apply starts_ws_lstrip.
Qed.

Lemma starts_ws_prefix (a b : pystr) :
  starts_ws (a ++ b) = false -> forallb isspace b = true ->
  starts_ws a = false.
Proof.
  destruct a as [|c a]; simpl; auto.
Qed.

Lemma starts_ws_strip (s : pystr) : starts_ws (strip s) = false.
Proof.
  unfold strip. destruct (rstrip_split (lstrip s)) as [w [Hs Hw]].
  apply starts_ws_prefix with (b := w); [|exact Hw].
  rewrite <- Hs. apply starts_ws_lstrip.
Qed.

Lemma ends_ws_strip (s : pystr) : ends_ws (strip s) = false.
Proof. apply ends_ws_rstrip. Qed.

Lemma has_ws_run_cons (c : N) (s : pystr) :
  has_ws_run (c :: s) = (isspace c && starts_ws s) || has_ws_run s.
Proof.
  destruct s as [|d s]; simpl; [rewrite andb_false_r|]; reflexivity.
Qed.

Lemma has_ws_run_app (a b : pystr) :
  has_ws_run (a ++ b) = false ->
  has_ws_run a = false /\ has_ws_run b = false.
Proof.
  induction a as [|c a IH]; intros H.
  - split; [reflexivity | exact H].
  - change ((c :: a) ++ b) with (c :: (a ++ b)) in H.
    rewrite has_ws_run_cons in H. rewrite has_ws_run_cons.
    apply orb_false_elim in H as [H1 H2].
    destruct (IH H2) as [Ha Hb]. split; [|exact Hb].
    rewrite Ha, orb_false_r.
    destruct (isspace c); [|reflexivity].
    destruct a as [|d a]; [reflexivity | exact H1].
Qed.

Lemma has_ws_run_lstrip (s : pystr) :
  has_ws_run s = false -> has_ws_run (lstrip s) = false.
Proof.
  destruct (lstrip_split s) as [w [Hs _]]. intros H.
  rewrite Hs in H. apply has_ws_run_app in H. apply H.
Qed.

Lemma has_ws_run_rstrip (s : pystr) :
  has_ws_run s = false -> has_ws_run (rstrip s) = false.
Proof.
  destruct (rstrip_split s) as [w [Hs _]]. intros H.
  rewrite Hs in H. apply has_ws_run_app in H. apply H.
Qed.

Lemma has_ws_run_strip (s : pystr) :
  has_ws_run s = false -> has_ws_run (strip s) = false.
Proof.
  intros H. apply has_ws_run_rstrip, has_ws_run_lstrip, H.
Qed.

Lemma starts_ws_re_sub_skipping (s : pystr) :
  starts_ws (re_sub_ws true s) = false.
Proof.
  induction s as [|c s IH]; simpl; [reflexivity|].
  destruct (isspace c) eqn:Hc; [exact IH | simpl; exact Hc].
Qed.

Lemma has_ws_run_re_sub (skipping : bool) (s : pystr) :
  has_ws_run (re_sub_ws skipping s) = false.
Proof.
  revert skipping. induction s as [|c s IH]; intros skipping; [reflexivity|].
  cbn [re_sub_ws]. destruct (isspace c) eqn:Hc.
  - destruct skipping; [apply IH|].
    destruct s as [|d s]; [reflexivity|].
    destruct (isspace d) eqn:Hd.
    + rewrite has_ws_run_cons, IH, starts_ws_re_sub_skipping.
      rewrite andb_false_r. reflexivity.
    + rewrite has_ws_run_cons, IH, orb_false_r.
      cbn [re_sub_ws]. rewrite Hd. simpl. rewrite Hd. apply andb_false_r.
  - rewrite has_ws_run_cons, IH, Hc. reflexivity.
Qed.

Lemma re_sub_ws_fixed (s : pystr) :
  has_ws_run s = false -> re_sub_ws false s = s.
Proof.
  induction s as [|c s IH]; [reflexivity|].
  rewrite has_ws_run_cons. intros H.
  apply orb_false_elim in H as [H1 H2].
  cbn [re_sub_ws]. destruct (isspace c) eqn:Hc.
  - destruct s as [|d s]; [reflexivity|].
    simpl in H1. rewrite H1. f_equal. apply IH, H2.
  - f_equal. apply IH, H2.
Qed.

(** What [re.sub(r"\s{2,}", " ", text).strip()] returns is normalized. *)
Lemma normalized_strip_re_sub (s : pystr) :
  normalized (strip (re_sub_ws false s)).
Proof.
  repeat split.
  - apply has_ws_run_strip, has_ws_run_re_sub.
  - apply starts_ws_strip.
  - apply ends_ws_strip.
Qed.

(** Normalized text goes through the two steps unchanged. *)
Lemma strip_re_sub_fixed (s : pystr) :
  normalized s -> strip (re_sub_ws false s) = s.
Proof.
  intros [H1 [H2 H3]]. rewrite (re_sub_ws_fixed _ H1).
  apply strip_fixed; assumption.
Qed.

(** ** Lists *)

Lemma index_last_app {A : Type} (l : list A) (a : A) :
  index_last (l ++ [a]) = Ok a.
Proof.
  unfold index_last. rewrite length_app. simpl.
  replace (length l + 1 - 1)%nat with (length l) by lia.
  rewrite nth_error_app2 by lia. rewrite Nat.sub_diag. reflexivity.
Qed.

Lemma update_last_app {A : Type} (f : A -> A) (l : list A) (a : A) :
  update_last f (l ++ [a]) = l ++ [f a].
Proof.
  unfold update_last. rewrite length_app. simpl.
  replace (length l + 1 - 1)%nat with (length l + 0)%nat by lia.
  rewrite firstn_app_2, skipn_app, Nat.add_0_r, skipn_all.
  replace (length l - length l)%nat with 0%nat by lia.
  simpl. rewrite app_nil_r. reflexivity.
Qed.

Lemma last_split {A : Type} (l : list A) :
  l <> [] -> exists l' a, l = l' ++ [a].
Proof.
  intros H. destruct (exists_last H) as [l' [a Hl]]. eauto.
Qed.

Lemma append_text_twice (s t : pystr) (e : Element) :
  append_text t (append_text s e) = append_text (s ++ t) e.
Proof. destruct e; simpl; rewrite <- app_assoc; reflexivity. Qed.

Lemma append_text_nil (e : Element) : append_text [] e = e.
Proof. destruct e; simpl; rewrite app_nil_r; reflexivity. Qed.

(** ** The normalizer and the loop, for any tree builder *)

Section ExtractorFacts.

Context {lib : Library}.

(** The cleaned text of a selected tag, [clean_text(str(element))]. *)
Abbreviation cleaned el := (clean_text (node_str (el_node el))).

Lemma clean_text_is_normalized (html : pystr) : normalized (clean_text html).
Proof. unfold clean_text. apply normalized_strip_re_sub. Qed.

Lemma strip_clean_text (html : pystr) :
  strip (clean_text html) = clean_text html.
Proof.
  destruct (clean_text_is_normalized html) as [_ [Hs He]].
  apply strip_fixed; assumption.
Qed.

(** *** The branches of the loop body *)

Lemma loop_body_heading (elements : list Element) (found : bool) (el : element) :
  is_heading el = Ok true ->
  loop_body (elements, found) el
  = Ok (elements ++ [Subtitle (cleaned el)], found).
Proof. intros H. unfold loop_body. rewrite H. reflexivity. Qed.

Lemma loop_body_marker (elements : list Element) (found : bool)
      (el : element) (tag : node) :
  is_heading el = Ok false ->
  select_one_versenum (el_node el) = Some tag ->
  loop_body (elements, found) el
  = Ok (elements
          ++ [Verse (get_text_strip tag)
                    (strip (re_sub_prefix (get_text_strip tag) (cleaned el)))],
        true).
Proof.
  intros H Ht. unfold loop_body. rewrite H. simpl.
  rewrite Ht. reflexivity.
Qed.

Lemma loop_body_implicit (elements : list Element) (el : element) :
  is_heading el = Ok false ->
  select_one_versenum (el_node el) = None ->
  loop_body (elements, false) el
  = Ok (elements ++ [Verse (py "1") (cleaned el)], true).
Proof.
  intros H Ht. unfold loop_body. rewrite H. simpl.
  rewrite Ht. simpl. rewrite strip_clean_text. reflexivity.
Qed.

Lemma loop_body_continuation (elements : list Element) (last : Element)
      (el : element) :
  is_heading el = Ok false ->
  select_one_versenum (el_node el) = None ->
  loop_body (elements ++ [last], true) el
  = Ok (if is_verse last
        then elements ++ [append_text (32 :: cleaned el) last]
        else elements ++ [last],
        true).
Proof.
  intros H Ht. unfold loop_body. rewrite H. simpl.
  rewrite Ht. simpl.
  destruct (elements ++ [last]) eqn:E.
  - destruct elements; discriminate.
  - rewrite <- E. rewrite index_last_app. simpl.
    destruct (is_verse last); [rewrite update_last_app|]; reflexivity.
Qed.

Lemma loop_body_continuation_empty (el : element) :
  is_heading el = Ok false ->
  select_one_versenum (el_node el) = None ->
  loop_body ([], true) el = Ok ([], true).
Proof.
  intros H Ht. unfold loop_body. rewrite H. simpl.
  rewrite Ht. reflexivity.
Qed.

(** The tags [select] hands out have a parent, so the test for a
    heading does not fail on them. *)
Lemma is_heading_total (el : element) :
  el_parents el <> [] -> exists b, is_heading el = Ok b.
Proof.
  intros H. unfold is_heading, parent.
  destruct (name_is (py "span") (el_node el)); [|eauto].
  destruct (el_parents el); [congruence | simpl; eauto].
Qed.

Lemma loop_body_total (st : loop_state) (el : element) :
  el_parents el <> [] -> exists st', loop_body st el = Ok st'.
Proof.
  intros H. destruct st as [elements found].
  destruct (is_heading_total el H) as [[|] Hh].
  - rewrite loop_body_heading by exact Hh. eauto.
  - destruct (select_one_versenum (el_node el)) as [tag|] eqn:Ht.
    + rewrite (loop_body_marker _ _ _ tag) by assumption. eauto.
    + destruct found.
      * destruct elements as [|e elements'].
        -- rewrite loop_body_continuation_empty by assumption. eauto.
        -- assert (Hne : e :: elements' <> []) by discriminate.
           destruct (last_split _ Hne) as [l' [a ->]].
           rewrite loop_body_continuation by assumption. eauto.
      * rewrite loop_body_implicit by assumption. eauto.
Qed.

Lemma for_loop_total (els : list element) (st : loop_state) :
  Forall (fun el => el_parents el <> []) els ->
  exists st', for_loop els st = Ok st'.
Proof.
  revert st. induction els as [|el els IH]; intros st H; simpl.
  - eauto.
  - inversion H as [|? ? Hel Hels]; subst.
    destruct (loop_body_total st el Hel) as [st' ->]. simpl.
    apply IH, Hels.
Qed.

Lemma for_loop_app (els1 els2 : list element) (st : loop_state) :
  for_loop (els1 ++ els2) st
  = bind (for_loop els1 st) (for_loop els2).
Proof.
  revert st. induction els1 as [|el els1 IH]; intros st; simpl.
  - reflexivity.
  - destruct (loop_body st el); simpl; [apply IH | reflexivity].
Qed.

Lemma select_from_parents (n : node) :
  forall parents, parents <> [] ->
  Forall (fun el => el_parents el <> []) (select_from parents n).
Proof.
  induction n as [s | nm attrs cs IH] using node_tree_ind;
    intros parents Hp; simpl.
  - constructor.
  - apply Forall_app. split.
    + destruct (matches_selector _ _); repeat constructor. exact Hp.
    + apply Forall_flat_map. rewrite Forall_forall in *.
      intros c Hc. apply IH; [exact Hc | discriminate].
Qed.

Lemma select_parents (soup : node) :
  Forall (fun el => el_parents el <> []) (select soup).
Proof.
  unfold select. apply Forall_flat_map. rewrite Forall_forall.
  intros c _. apply select_from_parents. discriminate.
Qed.

(** What one iteration can do to the state. *)
Lemma loop_body_cases (elements elements' : list Element) (found found' : bool)
      (el : element) :
  loop_body (elements, found) el = Ok (elements', found') ->
  (is_heading el = Ok true
   /\ elements' = elements ++ [Subtitle (cleaned el)] /\ found' = found)
  \/ (is_heading el = Ok false
      /\ exists n t, elements' = elements ++ [Verse n t] /\ found' = true)
  \/ (is_heading el = Ok false
      /\ select_one_versenum (el_node el) = None
      /\ found = true /\ found' = true
      /\ (elements' = elements
          \/ exists l last, elements = l ++ [last]
               /\ elements' = l ++ [append_text (32 :: cleaned el) last])).
Proof.
  intros H. destruct (is_heading el) as [[|]|e] eqn:Hh.
  - rewrite loop_body_heading in H by exact Hh. inversion H. auto.
  - destruct (select_one_versenum (el_node el)) as [tag|] eqn:Ht.
    + rewrite (loop_body_marker _ _ _ tag) in H by assumption.
      inversion H. right. left. eauto.
    + destruct found.
      * right. right. destruct elements as [|e elements0].
        -- rewrite loop_body_continuation_empty in H by assumption.
           inversion H. auto 10.
        -- assert (Hne : e :: elements0 <> []) by discriminate.
           destruct (last_split _ Hne) as [l [a Hl]]. rewrite Hl in *.
           rewrite loop_body_continuation in H by assumption.
           inversion H. repeat (split; [reflexivity|]).
           destruct (is_verse a); [right; eauto | left; reflexivity].
      * rewrite loop_body_implicit in H by assumption.
        inversion H. right. left. eauto.
  - unfold loop_body in H. rewrite Hh in H. discriminate.
Qed.

(** An iteration keeps [first_verse_found] once it is set, and keeps every
    element in its place, with at most more text. *)
Lemma loop_body_extends (elements elements' : list Element) (found found' : bool)
      (el : element) :
  loop_body (elements, found) el = Ok (elements', found') ->
  (found = true -> found' = true)
  /\ forall i e, nth_error elements i = Some e ->
       exists t, nth_error elements' i = Some (append_text t e).
Proof.
  intros H. apply loop_body_cases in H.
  destruct H as [[_ [-> ->]] | [[_ [n [t [-> ->]]]] | [_ [_ [-> [-> H]]]]]].
  - split; [auto|]. intros i e Hi. exists [].
    rewrite append_text_nil, nth_error_app1; [exact Hi|].
    apply nth_error_Some. congruence.
  - split; [auto|]. intros i e Hi. exists [].
    rewrite append_text_nil, nth_error_app1; [exact Hi|].
    apply nth_error_Some. congruence.
  - split; [auto|]. destruct H as [-> | [l [last [-> ->]]]].
    + intros i e Hi. exists []. rewrite append_text_nil. exact Hi.
    + intros i e Hi.
      destruct (Nat.lt_ge_cases i (length l)) as [Hlt | Hge].
      * exists []. rewrite append_text_nil.
        rewrite nth_error_app1 in * by exact Hlt. exact Hi.
      * rewrite nth_error_app2 in * by exact Hge.
        destruct (i - length l)%nat as [|k]; simpl in *.
        -- inversion Hi; subst. eauto.
        -- destruct k; discriminate.
Qed.

Lemma for_loop_extends (els : list element) :
  forall elements elements' found found',
  for_loop els (elements, found) = Ok (elements', found') ->
  (found = true -> found' = true)
  /\ forall i e, nth_error elements i = Some e ->
       exists t, nth_error elements' i = Some (append_text t e).
Proof.
  induction els as [|el els IH]; intros elements elements' found found' H.
  - simpl in H. inversion H. split; [auto|].
    intros i e Hi. exists []. rewrite append_text_nil. exact Hi.
  - cbn [for_loop] in H.
    destruct (loop_body (elements, found) el) as [[es1 f1]|] eqn:Hb;
      [|discriminate].
    cbn [bind] in H. apply loop_body_extends in Hb as [Hf1 He1].
    apply IH in H as [Hf2 He2]. split; [auto|].
    intros i e Hi. destruct (He1 i e Hi) as [t1 H1].
    destruct (He2 i _ H1) as [t2 H2].
    exists (t1 ++ t2). rewrite H2, append_text_twice. reflexivity.
Qed.

(** Headings only add subtitles. *)
Lemma for_loop_headings (hs : list element) :
  forall elements found,
  Forall (fun h => is_heading h = Ok true) hs ->
  for_loop hs (elements, found)
  = Ok (elements ++ map (fun h => Subtitle (cleaned h)) hs, found).
Proof.
  induction hs as [|h hs IH]; intros elements found H;
    cbn [for_loop map].
  - rewrite app_nil_r. reflexivity.
  - inversion H as [|? ? Hh Hhs]; subst.
    rewrite loop_body_heading by exact Hh. cbn [bind].
    rewrite IH by exact Hhs. rewrite <- app_assoc. reflexivity.
Qed.

(** *** The normalizer *)

(** C9.  For every input string, the text [clean_text] returns holds no
    run of two or more consecutive whitespace characters and has no
    leading or trailing whitespace. *)
Theorem clean_text_whitespace (html : pystr) :
  has_ws_run (clean_text html) = false
  /\ starts_ws (clean_text html) = false
  /\ ends_ws (clean_text html) = false.
Proof. exact (clean_text_is_normalized html). Qed.

Section PlainText.

(** What the tree builder makes of text without markup: nothing of the
    empty string, and one string of text that starts with a character
    other than whitespace. *)
Hypothesis parser_empty : html_parser [] = [].
Hypothesis parser_text :
  forall t, t <> [] -> starts_ws t = false ->
            forallb (fun c => negb (is_markup c)) t = true ->
            html_parser t = [NavigableString t].

Lemma clean_text_plain (t : pystr) :
  normalized t ->
  forallb (fun c => negb (is_markup c)) t = true ->
  clean_text t = t.
Proof.
  intros Hn Hm. unfold clean_text, BeautifulSoup.
  destruct t as [|c t].
  - rewrite parser_empty. reflexivity.
  - destruct Hn as [H1 [H2 H3]].
    rewrite parser_text by (try discriminate; assumption).
    replace (get_text _) with (c :: t) by (cbn; rewrite app_nil_r; reflexivity).
    apply strip_re_sub_fixed. repeat split; assumption.
Qed.

(** C2, as amended.  Normalizing again is a no-op on every normalized
    text that holds neither [<] nor [&]: for every input [s] whose cleaned
    text is free of the two, [clean_text (clean_text s) = clean_text s]. *)
Theorem clean_text_idempotent_plain (s : pystr) :
  forallb (fun c => negb (is_markup c)) (clean_text s) = true ->
  clean_text (clean_text s) = clean_text s.
Proof.
  intros H. apply clean_text_plain; [apply clean_text_is_normalized | exact H].
Qed.

End PlainText.

(** *** The extractor *)

(** C6.  A selected tag, other than a heading, that holds a verse-number
    marker: the marker's stripped text is the verse number; when the
    cleaned text of the tag starts with that string it is removed and the
    rest is stripped, otherwise the cleaned text is kept as it is; a new
    verse is appended and [first_verse_found] is set. *)
Theorem marker_appends_verse (elements : list Element) (found : bool)
        (el : element) (tag : node) :
  is_heading el = Ok false ->
  select_one_versenum (el_node el) = Some tag ->
  let verse_number := get_text_strip tag in
  let text :=
    if startswith verse_number (cleaned el)
    then strip (skipn (length verse_number) (cleaned el))
    else cleaned el in
  loop_body (elements, found) el
  = Ok (elements ++ [Verse verse_number text], true).
Proof.
  intros Hh Ht verse_number text.
  rewrite (loop_body_marker _ _ _ tag) by assumption.
  subst text verse_number. unfold re_sub_prefix.
  destruct (startswith _ _); [reflexivity | rewrite strip_clean_text; reflexivity].
Qed.

(** C5.  A tag without a marker, other than a heading, met when
    [first_verse_found] is set and the last element is a verse: a single
    space and the cleaned text of the tag are appended to the text of that
    verse, in its place, and the sequence keeps its length. *)
Theorem continuation_appends_to_last_verse (elements : list Element)
        (n t : pystr) (el : element) :
  is_heading el = Ok false ->
  select_one_versenum (el_node el) = None ->
  loop_body (elements ++ [Verse n t], true) el
  = Ok (elements ++ [Verse n (t ++ py " " ++ cleaned el)], true)
  /\ length (elements ++ [Verse n (t ++ py " " ++ cleaned el)])
     = length (elements ++ [Verse n t]).
Proof.
  intros Hh Ht. split.
  - rewrite loop_body_continuation by assumption. reflexivity.
  - rewrite !length_app. reflexivity.
Qed.

(** A tag without a marker met with the flag set changes at most the
    last element. *)
Lemma loop_body_continuation_frame (elements : list Element) (el : element) :
  is_heading el = Ok false ->
  select_one_versenum (el_node el) = None ->
  exists elements',
    loop_body (elements, true) el = Ok (elements', true)
    /\ length elements' = length elements
    /\ forall i, (S i < length elements)%nat ->
                 nth_error elements' i = nth_error elements i.
Proof.
  intros Hh Ht. destruct elements as [|e elements0].
  - exists []. rewrite loop_body_continuation_empty by assumption. auto.
  - assert (Hne : e :: elements0 <> []) by discriminate.
    destruct (last_split _ Hne) as [l [a ->]].
    rewrite loop_body_continuation by assumption.
    destruct (is_verse a).
    + eexists. split; [reflexivity|]. split.
      * rewrite !length_app. reflexivity.
      * intros i Hi. rewrite length_app in Hi. simpl in Hi.
        rewrite !nth_error_app1 by lia. reflexivity.
    + eexists. split; [reflexivity|]. auto.
Qed.

(** C8.  Only the tag of the last element decides: with
    [first_verse_found] set and a subtitle last, a tag without a marker is
    dropped whatever comes before the subtitle, earlier verses included;
    and in every state with the flag set such a tag leaves the length of
    the sequence and each element before the last one as they were. *)
Theorem continuation_only_reaches_last (elements : list Element) (el : element) :
  is_heading el = Ok false ->
  select_one_versenum (el_node el) = None ->
  (forall s, loop_body (elements ++ [Subtitle s], true) el
             = Ok (elements ++ [Subtitle s], true))
  /\ exists elements',
       loop_body (elements, true) el = Ok (elements', true)
       /\ length elements' = length elements
       /\ forall i, (S i < length elements)%nat ->
                    nth_error elements' i = nth_error elements i.
Proof.
  intros Hh Ht. split.
  - intros s. exact (loop_body_continuation elements (Subtitle s) el Hh Ht).
  - exact (loop_body_continuation_frame elements el Hh Ht).
Qed.



Lemma parse_chapter_ok (html : pystr) (verbose : bool) (stdout : list pystr) :
  exists elements found,
    for_loop (select (BeautifulSoup html)) ([], false)
    = Ok (elements, found)
    /\ fst (parse_chapter html verbose stdout) = Ok elements.
Proof.
  destruct (for_loop_total
              (select (BeautifulSoup html)) ([], false)
              (select_parents _)) as [[elements found] H].
  exists elements, found. split; [exact H|].
  unfold parse_chapter. rewrite H. reflexivity.
Qed.

(** Without [verbose] the call prints nothing, and what was printed
    before has no part in its result. *)
Lemma parse_chapter_pure (html : pystr) (stdout1 stdout2 : list pystr) :
  fst (parse_chapter html false stdout1) = fst (parse_chapter html false stdout2)
  /\ snd (parse_chapter html false stdout1) = stdout1.
Proof.
  unfold parse_chapter.
  destruct (for_loop _ _) as [[elements found]|e]; split; reflexivity.
Qed.


(** C4.  In a document whose first selected tag that is not a heading
    holds no verse-number marker, that tag becomes verse ["1"]: after it
    the sequence is the subtitles of the headings before it and that
    verse, and the verse is still there, at most with more text, in what
    [parse_chapter] returns.  It happens once: every later tag without a
    marker, whatever the tags between hold, is met with
    [first_verse_found] set and adds no element. *)
Theorem implicit_first_verse_once (html : pystr) (hs : list element)
        (el : element) (rest : list element) :
  select (BeautifulSoup html) = hs ++ el :: rest ->
  Forall (fun h => is_heading h = Ok true) hs ->
  is_heading el = Ok false ->
  select_one_versenum (el_node el) = None ->
  for_loop (hs ++ [el]) ([], false)
  = Ok (map (fun h => Subtitle (cleaned h)) hs ++ [Verse (py "1") (cleaned el)],
        true)
  /\ (exists elements t,
        fst (parse_chapter html false []) = Ok elements
        /\ nth_error elements (length hs)
           = Some (Verse (py "1") (cleaned el ++ t)))
  /\ (forall r1 m r2,
        rest = r1 ++ m :: r2 ->
        is_heading m = Ok false ->
        select_one_versenum (el_node m) = None ->
        exists elements elements',
          for_loop (hs ++ el :: r1) ([], false) = Ok (elements, true)
          /\ loop_body (elements, true) m = Ok (elements', true)
          /\ length elements' = length elements).
Proof.
  intros Hsel Hhs Hh Ht.
  assert (Hfirst : for_loop (hs ++ [el]) ([], false)
                   = Ok (map (fun h => Subtitle (cleaned h)) hs
                           ++ [Verse (py "1") (cleaned el)], true)).
  { rewrite for_loop_app, for_loop_headings by exact Hhs.
    cbn [bind for_loop app].
    rewrite loop_body_implicit by assumption. reflexivity. }
  assert (Hpar : Forall (fun e => el_parents e <> []) (hs ++ el :: rest)).
  { rewrite <- Hsel. apply select_parents. }
  split; [exact Hfirst|]. split.
  - destruct (parse_chapter_ok html false []) as [es [f [Hloop Hres]]].
    rewrite Hsel in Hloop.
    change (hs ++ el :: rest) with (hs ++ [el] ++ rest) in Hloop.
    rewrite app_assoc, for_loop_app, Hfirst in Hloop. cbn [bind] in Hloop.
    apply for_loop_extends in Hloop as [_ Hext].
    destruct (Hext (length hs) (Verse (py "1") (cleaned el))) as [t Hn].
    { rewrite nth_error_app2 by (rewrite length_map; lia).
      rewrite length_map, Nat.sub_diag. reflexivity. }
    exists es, t. split; [exact Hres | exact Hn].
  - intros r1 m r2 Hrest Hm Hmt. subst rest.
    change (hs ++ el :: r1) with (hs ++ [el] ++ r1).
    rewrite app_assoc, for_loop_app, Hfirst. cbn [bind].
    apply Forall_app in Hpar as [_ Hpar].
    inversion Hpar as [|? ? _ Hpar']; subst.
    apply Forall_app in Hpar' as [Hr1 _].
    destruct (for_loop_total r1
                (map (fun h => Subtitle (cleaned h)) hs
                   ++ [Verse (py "1") (cleaned el)], true) Hr1)
      as [[es f] Hes].
    pose proof (for_loop_extends _ _ _ _ _ Hes) as [Hf _].
    rewrite (Hf eq_refl) in Hes.
    destruct (loop_body_continuation_frame es m Hm Hmt)
      as [es' [Hstep [Hlen _]]].
    exists es, es'. auto.
Qed.

End ExtractorFacts.

(** ** The calls: which exceptions they raise *)

Section CallFacts.

Context {lib : Library} {errors : ParserErrors}.

(** The parser accepts what [str] gives for the tag. *)
Abbreviation accepted el := (parser_raises (node_str (el_node el)) = None).










End CallFacts.

(** ** The model of the library *)

Lemma span_until_none (stop : N -> bool) (s : pystr) :
  forallb (fun c => negb (stop c)) s = true ->
  Bs4.span_until stop s = (s, []).
Proof.
  induction s as [|c s IH]; simpl; [reflexivity|].
  intros H. apply andb_prop in H as [Hc Hs].
  apply negb_true_iff in Hc. rewrite Hc, (IH Hs). reflexivity.
Qed.

Lemma is_ascii_space_isspace (c : N) :
  Bs4.is_ascii_space c = true -> isspace c = true.
Proof.
  unfold Bs4.is_ascii_space. intros H.
  repeat (apply orb_prop in H as [H | H]);
    apply N.eqb_eq in H; subst c; reflexivity.
Qed.

Lemma bs4_lex_text (t : pystr) :
  t <> [] ->
  forallb (fun c => negb (is_markup c)) t = true ->
  Bs4.lex (length t) t = Some [Bs4.Data t].
Proof.
  destruct t as [|c t]; [congruence|]. intros _ H.
  pose proof (span_until_none is_markup _ H) as Hspan.
  simpl in H. apply andb_prop in H as [Hc _].
  apply negb_true_iff in Hc. unfold is_markup in Hc.
  apply orb_false_elim in Hc as [H60 H38].
  cbn [length Bs4.lex]. rewrite H60, H38, Hspan.
  destruct (length t); reflexivity.
Qed.

(** The tree builder makes nothing of the empty string. *)
Lemma bs4_parser_empty : Bs4.html_parser [] = [].
Proof. reflexivity. Qed.

(** Text without markup that starts with a character other than
    whitespace is one string of the tree. *)
Lemma bs4_parser_text (t : pystr) :
  t <> [] -> starts_ws t = false ->
  forallb (fun c => negb (is_markup c)) t = true ->
  Bs4.html_parser t = [NavigableString t].
Proof.
  intros Hne Hs Hm. unfold Bs4.html_parser, Bs4.parse.
  rewrite (bs4_lex_text t Hne Hm).
  destruct t as [|c t]; [congruence|].
  cbn [Bs4.build app Bs4.end_data].
  assert (Hc : Bs4.is_ascii_space c = false).
  { destruct (Bs4.is_ascii_space c) eqn:E; [|reflexivity].
    apply is_ascii_space_isspace in E. simpl in Hs. congruence. }
  cbn [forallb]. rewrite Hc. reflexivity.
Qed.

(** ** The concrete scenarios *)

(** Counterexample to C1 as stated.  On the fragment alone
    [parse_chapter] returns the subtitle only: the second tag of class
    [text] lies neither in a tag of class [passage-content] nor in an
    [h3], so the selector does not match it. *)
Lemma scenario_fragment_alone :
  fst (Bs4.parse_chapter scenario_fragment false [])
  = Ok [Subtitle (py "Heading")]
  /\ fst (Bs4.parse_chapter scenario_fragment false [])
     <> Ok [Subtitle (py "Heading");
            Verse (py "1") (py "In the beginning...")].
Proof.
  split; [vm_compute; reflexivity|].
  vm_compute. intros H. discriminate H.
Qed.

(** C1, as amended.  For the document made of the fragment as the
    content of one [div] of class [passage-content],
    [<div class="passage-content">...</div>], [parse_chapter] returns
    exactly the subtitle ["Heading"] and then verse ["1"] with text
    ["In the beginning..."]; for the fragment alone it returns the
    subtitle only. *)
Theorem scenario_in_passage :
  fst (Bs4.parse_chapter scenario_passage false [])
  = Ok [Subtitle (py "Heading");
        Verse (py "1") (py "In the beginning...")]
  /\ fst (Bs4.parse_chapter scenario_fragment false [])
     = Ok [Subtitle (py "Heading")].
Proof. split; vm_compute; reflexivity. Qed.

(** Counterexample to C2 as stated.  The cleaned text of
    [&lt;sup&gt;x] is [<sup>x], and cleaning that again reads it as a
    footnote marker and returns the empty string. *)
Lemma clean_text_not_idempotent :
  Bs4.clean_text (py "&lt;sup&gt;x") = py "<sup>x"
  /\ Bs4.clean_text (py "<sup>x") = []
  /\ Bs4.clean_text (Bs4.clean_text (py "&lt;sup&gt;x"))
     <> Bs4.clean_text (py "&lt;sup&gt;x").
Proof.
  split; [vm_compute; reflexivity|].
  split; [vm_compute; reflexivity|].
  vm_compute. intros H. discriminate H.
Qed.

Lemma clean_text_idempotent_plain_witness :
  forallb (fun c => negb (is_markup c))
          (Bs4.clean_text (py "<em>Selah</em>  and   rest ")) = true
  /\ Bs4.clean_text (Bs4.clean_text (py "<em>Selah</em>  and   rest "))
     = Bs4.clean_text (py "<em>Selah</em>  and   rest ")
  /\ Bs4.clean_text (py "<em>Selah</em>  and   rest ") = py "*Selah* and rest".
Proof.
  assert (H : forallb (fun c => negb (is_markup c))
                (Bs4.clean_text (py "<em>Selah</em>  and   rest ")) = true)
    by (vm_compute; reflexivity).
  split; [exact H|]. split.
  - exact (clean_text_idempotent_plain (lib := Bs4.library)
             bs4_parser_empty bs4_parser_text _ H).
  - vm_compute. reflexivity.
Defined.



Lemma marker_appends_verse_witness :
  is_heading (selected_at continued_passage 0) = Ok false
  /\ (exists tag,
        select_one_versenum (el_node (selected_at continued_passage 0))
        = Some tag /\ get_text_strip tag = py "3")
  /\ Bs4.loop_body ([Subtitle (py "Heading")], false)
                   (selected_at continued_passage 0)
     = Ok ([Subtitle (py "Heading"); Verse (py "3") (py "Then")], true).
Proof.
  set (el := selected_at continued_passage 0).
  assert (Hh : is_heading el = Ok false) by (vm_compute; reflexivity).
  destruct (select_one_versenum (el_node el)) as [tag|] eqn:Ht;
    [|vm_compute in Ht; discriminate Ht].
  split; [exact Hh|]. split.
  - exists tag. split; [reflexivity|].
    vm_compute in Ht. inversion Ht. vm_compute. reflexivity.
  - unfold Bs4.loop_body.
    rewrite (marker_appends_verse (lib := Bs4.library)
               [Subtitle (py "Heading")] false el tag Hh Ht).
    vm_compute in Ht. inversion Ht. vm_compute. reflexivity.
Defined.

Lemma continuation_appends_to_last_verse_witness :
  is_heading (selected_at continued_passage 1) = Ok false
  /\ select_one_versenum (el_node (selected_at continued_passage 1)) = None
  /\ Bs4.loop_body ([Verse (py "3") (py "Then")], true)
                   (selected_at continued_passage 1)
     = Ok ([Verse (py "3") (py "Then and God said")], true).
Proof.
  set (el := selected_at continued_passage 1).
  assert (Hh : is_heading el = Ok false) by (vm_compute; reflexivity).
  assert (Ht : select_one_versenum (el_node el) = None)
    by (vm_compute; reflexivity).
  split; [exact Hh|]. split; [exact Ht|].
  destruct (continuation_appends_to_last_verse (lib := Bs4.library)
              [] (py "3") (py "Then") el Hh Ht) as [H _].
  cbn [app] in H. unfold Bs4.loop_body. rewrite H. vm_compute. reflexivity.
Defined.



Lemma continuation_only_reaches_last_witness :
  is_heading (selected_at continued_passage 1) = Ok false
  /\ select_one_versenum (el_node (selected_at continued_passage 1)) = None
  /\ Bs4.loop_body ([Verse (py "3") (py "Then"); Subtitle (py "Heading")], true)
                   (selected_at continued_passage 1)
     = Ok ([Verse (py "3") (py "Then"); Subtitle (py "Heading")], true).
Proof.
  set (el := selected_at continued_passage 1).
  assert (Hh : is_heading el = Ok false) by (vm_compute; reflexivity).
  assert (Ht : select_one_versenum (el_node el) = None)
    by (vm_compute; reflexivity).
  split; [exact Hh|]. split; [exact Ht|].
  destruct (continuation_only_reaches_last (lib := Bs4.library)
              [Verse (py "3") (py "Then")] el Hh Ht) as [H _].
  exact (H (py "Heading")).
Defined.

Lemma implicit_first_verse_once_witness :
  selected unnumbered_passage
  = firstn 1 (selected unnumbered_passage)
    ++ selected_at unnumbered_passage 1
    :: skipn 2 (selected unnumbered_passage)
  /\ fst (Bs4.parse_chapter unnumbered_passage false [])
     = Ok [Subtitle (py "Heading");
           Verse (py "1") (py "In the beginning");
           Verse (py "1") (py "God created the heavens")]
  /\ exists elements t,
       fst (Bs4.parse_chapter unnumbered_passage false []) = Ok elements
       /\ nth_error elements 1
          = Some (Verse (py "1") (py "In the beginning" ++ t)).
Proof.
  assert (Hsel : selected unnumbered_passage
                 = firstn 1 (selected unnumbered_passage)
                   ++ selected_at unnumbered_passage 1
                   :: skipn 2 (selected unnumbered_passage))
    by (vm_compute; reflexivity).
  split; [exact Hsel|]. split; [vm_compute; reflexivity|].
  destruct (implicit_first_verse_once (lib := Bs4.library)
              unnumbered_passage _ _ _ Hsel) as [_ [[es [t [H1 H2]]] _]].
  - vm_compute. repeat constructor.
  - vm_compute. reflexivity.
  - vm_compute. reflexivity.
  - exists es, t. split; [exact H1|].
    vm_compute in H2. vm_compute. exact H2.
Defined.

(** ** Further facts: the whitespace step *)

Lemma non_ws_lstrip (s : pystr) : non_ws (lstrip s) = non_ws s.
Proof.
  induction s as [|c s IH]; [reflexivity|].
  cbn [lstrip]. destruct (isspace c) eqn:Hc; [|reflexivity].
  rewrite IH. unfold non_ws. cbn [filter]. rewrite Hc. reflexivity.
Qed.

Lemma non_ws_rstrip (s : pystr) : non_ws (rstrip s) = non_ws s.
Proof.
  unfold rstrip, non_ws. rewrite filter_rev.
  fold (non_ws (lstrip (rev s))). rewrite non_ws_lstrip.
  unfold non_ws. rewrite filter_rev, rev_involutive. reflexivity.
Qed.

Lemma non_ws_strip (s : pystr) : non_ws (strip s) = non_ws s.
Proof. unfold strip. rewrite non_ws_rstrip. apply non_ws_lstrip. Qed.

Lemma non_ws_re_sub (skipping : bool) (s : pystr) :
  non_ws (re_sub_ws skipping s) = non_ws s.
Proof.
  revert skipping. induction s as [|c s IH]; intros skipping; [reflexivity|].
  cbn [re_sub_ws]. destruct (isspace c) eqn:Hc.
  - assert (Hdrop : non_ws (c :: s) = non_ws s)
      by (unfold non_ws; simpl; rewrite Hc; reflexivity).
    rewrite Hdrop. destruct skipping; [apply IH|].
    destruct s as [|d s].
    + unfold non_ws. simpl. rewrite Hc. reflexivity.
    + destruct (isspace d) eqn:Hd.
      * change (non_ws (32 :: re_sub_ws true (d :: s)))
          with (non_ws (re_sub_ws true (d :: s))). apply IH.
      * unfold non_ws at 1. cbn [filter]. rewrite Hc. cbn [negb].
        apply IH.
  - unfold non_ws. cbn [filter]. rewrite Hc. cbn [negb].
    f_equal. apply IH.
Qed.

Lemma length_lstrip (s : pystr) : (length (lstrip s) <= length s)%nat.
Proof.
  induction s as [|c s IH]; simpl; [lia|].
  destruct (isspace c); simpl; lia.
Qed.

Lemma length_strip (s : pystr) : (length (strip s) <= length s)%nat.
Proof.
  unfold strip, rstrip. rewrite length_rev.
  pose proof (length_lstrip (rev (lstrip s))) as H1.
  rewrite length_rev in H1. pose proof (length_lstrip s). lia.
Qed.

Lemma length_re_sub (skipping : bool) (s : pystr) :
  (length (re_sub_ws skipping s) <= length s)%nat.
Proof.
  revert skipping. induction s as [|c s IH]; intros skipping; [simpl; lia|].
  cbn [re_sub_ws]. destruct (isspace c).
  - destruct skipping; [specialize (IH true); simpl; lia|].
    destruct s as [|d s]; [simpl; lia|].
    destruct (isspace d).
    + specialize (IH true). simpl in *. lia.
    + specialize (IH false). simpl in *. lia.
  - specialize (IH false). simpl. lia.
Qed.

Lemma non_ws_nil_iff (s : pystr) :
  non_ws s = [] <-> forallb isspace s = true.
Proof.
  unfold non_ws. induction s as [|c s IH]; simpl; [tauto|].
  destruct (isspace c); simpl; [exact IH|].
  split; intros H; discriminate H.
Qed.

Lemma stripped_all_ws_nil (s : pystr) :
  starts_ws s = false -> forallb isspace s = true -> s = [].
Proof.
  destruct s as [|c s]; simpl; [reflexivity|].
  intros H1 H2. apply andb_prop in H2 as [H2 _]. congruence.
Qed.

Section NormalizerFacts.

Context {lib : Library}.

Lemma clean_text_prepared (html : pystr) :
  clean_text html = strip (re_sub_ws false (get_text (prepared_soup html))).
Proof. reflexivity. Qed.

(** X1.  The last step of [clean_text] changes whitespace only: the
    characters of the result that are not whitespace are those of the
    text of the prepared tree, in the same order. *)
Theorem clean_text_keeps_non_ws (html : pystr) :
  non_ws (clean_text html) = non_ws (get_text (prepared_soup html)).
Proof.
  rewrite clean_text_prepared, non_ws_strip. apply non_ws_re_sub.
Qed.

(** X2.  [clean_text] returns the empty string exactly when the text of
    the prepared tree is made of whitespace only, the empty text
    included. *)
Theorem clean_text_empty_iff (html : pystr) :
  clean_text html = []
  <-> forallb isspace (get_text (prepared_soup html)) = true.
Proof.
  rewrite <- non_ws_nil_iff, <- clean_text_keeps_non_ws. split.
  - intros ->. reflexivity.
  - intros H. apply stripped_all_ws_nil.
    + apply clean_text_is_normalized.
    + apply non_ws_nil_iff, H.
Qed.

(** X3.  The cleaned text is never longer than the text of the prepared
    tree. *)
Theorem clean_text_length (html : pystr) :
  (length (clean_text html) <= length (get_text (prepared_soup html)))%nat.
Proof.
  rewrite clean_text_prepared.
  pose proof (length_strip (re_sub_ws false (get_text (prepared_soup html)))).
  pose proof (length_re_sub false (get_text (prepared_soup html))). lia.
Qed.

End NormalizerFacts.

(** ** Further facts: the three loops of [clean_text] *)

Lemma find_all_nil (p : node -> bool) (nm : pystr)
      (attrs : list (pystr * pystr)) (cs : list node) :
  find_all p (Tag nm attrs cs) = []
  <-> Forall (fun c => p c = false /\ find_all p c = []) cs.
Proof.
  cbn [find_all]. induction cs as [|c cs IH]; cbn [flat_map].
  - split; [constructor | reflexivity].
  - split.
    + intros H. apply app_eq_nil in H as [H1 H2].
      apply app_eq_nil in H1 as [H1 H3].
      constructor; [|apply IH, H2].
      split; [|exact H3]. destruct (p c); [discriminate | reflexivity].
    + intros H. inversion H as [|? ? [Hc Hf] Hcs]; subst.
      rewrite Hc, Hf. apply IH, Hcs.
Qed.

Lemma find_all_nil_weaken (p q : node -> bool) (n : node) :
  (forall m, q m = true -> p m = true) ->
  find_all p n = [] -> find_all q n = [].
Proof.
  intros Hqp. induction n as [s | nm attrs cs IH] using node_tree_ind;
    [reflexivity|].
  rewrite !find_all_nil. intros H.
  rewrite Forall_forall in *. intros c Hc.
  destruct (H c Hc) as [H1 H2]. split; [|apply IH; assumption].
  destruct (q c) eqn:E; [|reflexivity]. rewrite (Hqp c E) in H1. discriminate.
Qed.

Lemma shallow_decompose_all (p q : node -> bool) (n : node) :
  shallow q -> q (decompose_all p n) = q n.
Proof. intros H. destruct n; [reflexivity | apply H]. Qed.

Lemma shallow_replace_emphasis (q : node -> bool) (n : node) :
  shallow q -> q (replace_emphasis n) = q n.
Proof. intros H. destruct n; [reflexivity | apply H]. Qed.

(** After the loop no tag that satisfies the test is left. *)
Lemma decompose_all_clears (p : node -> bool) (n : node) :
  shallow p -> find_all p (decompose_all p n) = [].
Proof.
  intros Hp. induction n as [s | nm attrs cs IH] using node_tree_ind;
    [reflexivity|].
  cbn [decompose_all]. apply find_all_nil.
  induction cs as [|c cs IHcs]; cbn [flat_map]; [constructor|].
  inversion IH as [|? ? Hc Hcs]; subst.
  destruct (p c) eqn:E; [exact (IHcs Hcs)|].
  cbn [app]. constructor; [|exact (IHcs Hcs)].
  split; [|exact Hc]. rewrite shallow_decompose_all by exact Hp. exact E.
Qed.

(** The loop does not bring back what an earlier loop removed. *)
Lemma decompose_all_keeps_clear (p q : node -> bool) (n : node) :
  shallow q -> find_all q n = [] -> find_all q (decompose_all p n) = [].
Proof.
  intros Hq. induction n as [s | nm attrs cs IH] using node_tree_ind;
    [reflexivity|].
  cbn [decompose_all]. rewrite !find_all_nil. intros H.
  induction cs as [|c cs IHcs]; cbn [flat_map]; [constructor|].
  inversion IH as [|? ? Hc Hcs]; subst.
  inversion H as [|? ? [H1 H2] Hrest]; subst.
  destruct (p c); [exact (IHcs Hcs Hrest)|].
  cbn [app]. constructor; [|exact (IHcs Hcs Hrest)].
  split; [|exact (Hc H2)]. rewrite shallow_decompose_all by exact Hq. exact H1.
Qed.

Lemma shallow_is_emphasis : shallow is_emphasis.
Proof. intros nm attrs cs cs'. reflexivity. Qed.

Lemma shallow_is_sup : shallow is_sup.
Proof. intros nm attrs cs cs'. reflexivity. Qed.

Lemma shallow_is_chapternum : shallow is_chapternum.
Proof. intros nm attrs cs cs'. reflexivity. Qed.

Lemma replace_emphasis_clears (n : node) :
  find_all is_emphasis (replace_emphasis n) = [].
Proof.
  induction n as [s | nm attrs cs IH] using node_tree_ind; [reflexivity|].
  cbn [replace_emphasis]. apply find_all_nil.
  induction cs as [|c cs IHcs]; cbn [map]; [constructor|].
  inversion IH as [|? ? Hc Hcs]; subst.
  constructor; [|exact (IHcs Hcs)].
  destruct (is_emphasis c) eqn:E; [split; reflexivity|].
  split; [|exact Hc].
  rewrite shallow_replace_emphasis by exact shallow_is_emphasis. exact E.
Qed.

Lemma replace_emphasis_keeps_clear (q : node -> bool) (n : node) :
  shallow q -> (forall s, q (NavigableString s) = false) ->
  find_all q n = [] -> find_all q (replace_emphasis n) = [].
Proof.
  intros Hq Hs. induction n as [s | nm attrs cs IH] using node_tree_ind;
    [reflexivity|].
  cbn [replace_emphasis]. rewrite !find_all_nil. intros H.
  induction cs as [|c cs IHcs]; cbn [map]; [constructor|].
  inversion IH as [|? ? Hc Hcs]; subst.
  inversion H as [|? ? [H1 H2] Hrest]; subst.
  constructor; [|exact (IHcs Hcs Hrest)].
  destruct (is_emphasis c); [split; [apply Hs | reflexivity]|].
  split; [|exact (Hc H2)]. rewrite shallow_replace_emphasis by exact Hq. exact H1.
Qed.

(** A loop that finds nothing leaves the tree as it is. *)
Lemma decompose_all_id (p : node -> bool) (n : node) :
  find_all p n = [] -> decompose_all p n = n.
Proof.
  induction n as [s | nm attrs cs IH] using node_tree_ind; [reflexivity|].
  rewrite find_all_nil. intros H. cbn [decompose_all]. f_equal.
  induction cs as [|c cs IHcs]; [reflexivity|].
  inversion IH as [|? ? Hc Hcs]; subst.
  inversion H as [|? ? [H1 H2] Hrest]; subst.
  cbn [flat_map]. rewrite H1, (Hc H2), (IHcs Hcs Hrest). reflexivity.
Qed.

Lemma replace_emphasis_id (n : node) :
  find_all is_emphasis n = [] -> replace_emphasis n = n.
Proof.
  induction n as [s | nm attrs cs IH] using node_tree_ind; [reflexivity|].
  rewrite find_all_nil. intros H. cbn [replace_emphasis]. f_equal.
  induction cs as [|c cs IHcs]; [reflexivity|].
  inversion IH as [|? ? Hc Hcs]; subst.
  inversion H as [|? ? [H1 H2] Hrest]; subst.
  cbn [map]. rewrite H1, (Hc H2), (IHcs Hcs Hrest). reflexivity.
Qed.

Section LoopFacts.

Context {lib : Library}.

(** X4.  The tree whose text [clean_text] extracts holds no [sup] tag, no
    [span] of class [chapternum] and no [i] or [em] tag, at any depth. *)
Theorem prepared_soup_has_no_decoration (html : pystr) :
  find_all is_sup (prepared_soup html) = []
  /\ find_all is_chapternum (prepared_soup html) = []
  /\ find_all is_emphasis (prepared_soup html) = [].
Proof.
  unfold prepared_soup. repeat split.
  - apply replace_emphasis_keeps_clear;
      [exact shallow_is_sup | reflexivity|].
    apply decompose_all_keeps_clear; [exact shallow_is_sup|].
    apply decompose_all_clears, shallow_is_sup.
  - apply replace_emphasis_keeps_clear;
      [exact shallow_is_chapternum | reflexivity|].
    apply decompose_all_clears, shallow_is_chapternum.
  - apply replace_emphasis_clears.
Qed.

(** X5.  On a document that holds none of those tags the three loops do
    nothing: the cleaned text is the text of the document as parsed, with
    its whitespace runs collapsed, stripped. *)
Theorem clean_text_without_decoration (html : pystr) :
  find_all is_decoration (BeautifulSoup html) = [] ->
  clean_text html
  = strip (re_sub_ws false (flat_map get_text (html_parser html))).
Proof.
  intros H. rewrite clean_text_prepared. unfold prepared_soup.
  assert (H1 : find_all is_sup (BeautifulSoup html) = []).
  { apply (find_all_nil_weaken is_decoration); [|exact H].
    intros m Hm. unfold is_decoration. rewrite Hm. reflexivity. }
  assert (H2 : find_all is_chapternum (BeautifulSoup html) = []).
  { apply (find_all_nil_weaken is_decoration); [|exact H].
    intros m Hm. unfold is_decoration. rewrite Hm. apply orb_true_iff.
    left. apply orb_true_r. }
  assert (H3 : find_all is_emphasis (BeautifulSoup html) = []).
  { apply (find_all_nil_weaken is_decoration); [|exact H].
    intros m Hm. unfold is_decoration. rewrite Hm. apply orb_true_r. }
  rewrite (decompose_all_id _ _ H1), (decompose_all_id _ _ H2),
    (replace_emphasis_id _ H3).
  reflexivity.
Qed.

End LoopFacts.

Lemma clean_text_without_decoration_witness :
  find_all is_decoration
           (@BeautifulSoup Bs4.library (py "<b>In   the</b> beginning ")) = []
  /\ Bs4.clean_text (py "<b>In   the</b> beginning ") = py "In the beginning".
Proof.
  assert (H : find_all is_decoration
                (@BeautifulSoup Bs4.library (py "<b>In   the</b> beginning "))
              = []) by (vm_compute; reflexivity).
  split; [exact H|]. unfold Bs4.clean_text.
  rewrite (clean_text_without_decoration (lib := Bs4.library) _ H).
  vm_compute. reflexivity.
Defined.

(** ** Further facts: the selection *)

Lemma select_from_sound (n : node) :
  forall parents,
  Forall (fun el => has_class (py "text") (el_node el) = true
                    /\ existsb is_container (el_parents el) = true)
         (select_from parents n).
Proof.
  induction n as [s | nm attrs cs IH] using node_tree_ind;
    intros parents; cbn [select_from].
  - constructor.
  - apply Forall_app. split.
    + destruct (matches_selector _ _) eqn:E; [|constructor].
      repeat constructor; apply andb_prop in E; apply E.
    + apply Forall_flat_map. rewrite Forall_forall in *.
      intros c Hc. apply IH, Hc.
Qed.

Lemma select_from_no_container (n : node) :
  forall parents,
  existsb is_container parents = false ->
  is_container n = false ->
  find_all is_container n = [] ->
  select_from parents n = [].
Proof.
  induction n as [s | nm attrs cs IH] using node_tree_ind;
    intros parents Hp Hn Hf; cbn [select_from]; [reflexivity|].
  assert (Hm : matches_selector (Tag nm attrs cs) parents = false).
  { unfold matches_selector. fold is_container.
    change (existsb (fun a => has_class (py "passage-content") a
                              || name_is (py "h3") a) parents)
      with (existsb is_container parents).
    rewrite Hp. apply andb_false_r. }
  rewrite Hm. cbn [app]. apply find_all_nil in Hf.
  assert (Hps : existsb is_container (Tag nm attrs cs :: parents) = false)
    by (cbn [existsb]; rewrite Hn, Hp; reflexivity).
  set (ps := Tag nm attrs cs :: parents) in *. clearbody ps. clear Hm Hn.
  induction cs as [|c cs IHcs]; [reflexivity|].
  inversion IH as [|? ? Hc Hcs]; subst.
  inversion Hf as [|? ? [H1 H2] Hrest]; subst.
  cbn [flat_map]. rewrite (IHcs Hcs Hrest), app_nil_r.
  apply Hc; assumption.
Qed.

Section SelectionFacts.

Context {lib : Library}.

(** Every tag the selector hands to the loop carries the class [text]
    and lies below a tag of class [passage-content] or below an [h3]. *)
Lemma select_sound (html : pystr) :
  Forall (fun el => has_class (py "text") (el_node el) = true
                    /\ existsb is_container (el_parents el) = true)
         (select (BeautifulSoup html)).
Proof.
  unfold select. apply Forall_flat_map. rewrite Forall_forall.
  intros c _. apply select_from_sound.
Qed.

(** X7.  A document with no tag of class [passage-content] and no [h3]
    yields the empty chapter, whatever else it holds. *)
Theorem no_container_no_elements (html : pystr) (verbose : bool)
        (stdout : list pystr) :
  find_all is_container (BeautifulSoup html) = [] ->
  fst (parse_chapter html verbose stdout) = Ok [].
Proof.
  intros H.
  assert (Hsel : select (BeautifulSoup html) = []).
  { unfold select. unfold BeautifulSoup in *. cbn [contents_of].
    apply find_all_nil in H.
    assert (Hps : existsb is_container
                    [Tag (py "[document]") [] (html_parser html)] = false)
      by reflexivity.
    set (ps := [Tag (py "[document]") [] (html_parser html)]) in *.
    clearbody ps.
    induction (html_parser html) as [|c cs IHcs]; [reflexivity|].
    inversion H as [|? ? [H1 H2] Hrest]; subst.
    cbn [flat_map]. rewrite (IHcs Hrest), app_nil_r.
    apply select_from_no_container; assumption. }
  unfold parse_chapter. rewrite Hsel. reflexivity.
Qed.

End SelectionFacts.

Lemma no_container_no_elements_witness :
  find_all is_container
    (@BeautifulSoup Bs4.library
       (py "<p><span class='text'>In the beginning</span></p>")) = []
  /\ fst (Bs4.parse_chapter
            (py "<p><span class='text'>In the beginning</span></p>")
            false []) = Ok [].
Proof.
  assert (H : find_all is_container
                (@BeautifulSoup Bs4.library
                   (py "<p><span class='text'>In the beginning</span></p>"))
              = []) by (vm_compute; reflexivity).
  split; [exact H|].
  exact (no_container_no_elements (lib := Bs4.library) _ false [] H).
Defined.

(** ** Further facts: the run of the loop *)

Lemma verse_numbers_app (a b : list Element) :
  verse_numbers (a ++ b) = verse_numbers a ++ verse_numbers b.
Proof. unfold verse_numbers. apply flat_map_app. Qed.

Lemma subtitles_app (a b : list Element) :
  subtitles (a ++ b) = subtitles a ++ subtitles b.
Proof. unfold subtitles. apply filter_app. Qed.

Lemma is_heading_tag_ok (el : element) (b : bool) :
  is_heading el = Ok b -> is_heading_tag el = b.
Proof. unfold is_heading_tag. intros ->. reflexivity. Qed.

Section RunFacts.

Context {lib : Library}.

Abbreviation cleaned el := (clean_text (node_str (el_node el))).

(** The verse the marker branch appends. *)
Abbreviation marker_verse el :=
  (Verse (marker_number el)
         (strip (re_sub_prefix (marker_number el) (cleaned el)))).

(** Every way an iteration can end, by the tests of the source. *)
Lemma loop_body_inv (elements elements' : list Element) (found found' : bool)
      (el : element) :
  loop_body (elements, found) el = Ok (elements', found') ->
  (is_heading_tag el = true
   /\ elements' = elements ++ [Subtitle (cleaned el)] /\ found' = found)
  \/ (is_heading_tag el = false /\ has_marker el = true
      /\ elements' = elements ++ [marker_verse el] /\ found' = true)
  \/ (is_heading_tag el = false /\ has_marker el = false /\ found = false
      /\ elements' = elements ++ [Verse (py "1") (cleaned el)]
      /\ found' = true)
  \/ (is_heading_tag el = false /\ has_marker el = false /\ found = true
      /\ found' = true
      /\ ((elements' = elements
           /\ (elements = [] \/ exists l s, elements = l ++ [Subtitle s]))
          \/ exists l n t,
               elements = l ++ [Verse n t]
               /\ elements' = l ++ [Verse n (t ++ 32 :: cleaned el)])).
Proof.
  intros H. destruct (is_heading el) as [[|]|e] eqn:Hh.
  - rewrite loop_body_heading in H by exact Hh. inversion H.
    left. rewrite (is_heading_tag_ok _ _ Hh). auto.
  - right. rewrite (is_heading_tag_ok _ _ Hh).
    unfold has_marker, marker_number.
    destruct (select_one_versenum (el_node el)) as [tag|] eqn:Ht.
    + rewrite (loop_body_marker _ _ _ tag) in H by assumption.
      inversion H. left. auto.
    + right. destruct found.
      * right. destruct elements as [|e elements0].
        -- rewrite loop_body_continuation_empty in H by assumption.
           inversion H. auto 10.
        -- assert (Hne : e :: elements0 <> []) by discriminate.
           destruct (last_split _ Hne) as [l [a Hl]]. rewrite Hl in *.
           rewrite loop_body_continuation in H by assumption.
           inversion H. repeat (split; [reflexivity|]).
           destruct a as [s | n t]; cbn [is_verse append_text].
           ++ left. split; [reflexivity|]. right. eauto.
           ++ right. eauto.
      * rewrite loop_body_implicit in H by assumption.
        inversion H. left. auto.
  - unfold loop_body in H. rewrite Hh in H. discriminate.
Qed.

Lemma for_loop_cons (el : element) (els : list element) (st st' : loop_state) :
  for_loop (el :: els) st = Ok st' ->
  exists st1, loop_body st el = Ok st1 /\ for_loop els st1 = Ok st'.
Proof.
  cbn [for_loop]. destruct (loop_body st el) as [st1|e]; [|discriminate].
  cbn [bind]. eauto.
Qed.

Lemma parse_chapter_run (html : pystr) (verbose : bool) (stdout : list pystr)
      (elements : list Element) :
  fst (parse_chapter html verbose stdout) = Ok elements ->
  exists found,
    for_loop (select (BeautifulSoup html)) ([], false) = Ok (elements, found).
Proof.
  unfold parse_chapter.
  destruct (for_loop _ _) as [[es f]|e]; cbn [fst]; intros H;
    [|discriminate].
  inversion H. eauto.
Qed.

Lemma for_loop_length (els : list element) :
  forall elements found elements' found',
  for_loop els (elements, found) = Ok (elements', found') ->
  (length elements' <= length elements + length els)%nat.
Proof.
  induction els as [|el els IH]; intros es f es' f' H.
  - inversion H. simpl. lia.
  - apply for_loop_cons in H as [[es1 f1] [Hb Hr]].
    apply IH in Hr. apply loop_body_inv in Hb.
    assert (length es1 <= S (length es))%nat.
    { destruct Hb as [[_ [-> _]] | [[_ [_ [-> _]]] | [[_ [_ [_ [-> _]]]]
             | [_ [_ [_ [_ [[-> _] | [l [n [t [-> ->]]]]]]]]]]]];
        rewrite ?length_app; simpl; lia. }
    simpl. lia.
Qed.

(** X8.  The chapter never holds more elements than the selector found
    tags: an iteration appends one element at most. *)
Theorem parse_chapter_length (html : pystr) (verbose : bool)
        (stdout : list pystr) (elements : list Element) :
  fst (parse_chapter html verbose stdout) = Ok elements ->
  (length elements <= length (select (BeautifulSoup html)))%nat.
Proof.
  intros H. apply parse_chapter_run in H as [f H].
  apply for_loop_length in H. simpl in H. exact H.
Qed.

Lemma for_loop_subtitles (els : list element) :
  forall elements found elements' found',
  for_loop els (elements, found) = Ok (elements', found') ->
  subtitles elements'
  = subtitles elements
    ++ map (fun h => Subtitle (cleaned h)) (heading_tags els).
Proof.
  induction els as [|el els IH]; intros es f es' f' H.
  - inversion H. simpl. rewrite app_nil_r. reflexivity.
  - apply for_loop_cons in H as [[es1 f1] [Hb Hr]].
    apply IH in Hr. rewrite Hr. apply loop_body_inv in Hb.
    unfold heading_tags. cbn [filter].
    destruct Hb as [[Hh [-> _]] | [[Hh [_ [-> _]]] | [[Hh [_ [_ [-> _]]]]
             | [Hh [_ [_ [_ [[-> _] | [l [n [t [-> ->]]]]]]]]]]]];
      rewrite Hh; rewrite ?subtitles_app; cbn [subtitles filter is_verse negb map];
      rewrite ?app_nil_r; try reflexivity.
    rewrite <- app_assoc. reflexivity.
Qed.

(** X9.  The subtitles of the chapter are the cleaned texts of the
    selected headings, one for one and in document order; no later tag
    changes or removes a subtitle. *)
Theorem parse_chapter_subtitles (html : pystr) (verbose : bool)
        (stdout : list pystr) (elements : list Element) :
  fst (parse_chapter html verbose stdout) = Ok elements ->
  subtitles elements
  = map (fun h => Subtitle (cleaned h))
        (heading_tags (select (BeautifulSoup html))).
Proof.
  intros H. apply parse_chapter_run in H as [f H].
  apply for_loop_subtitles in H. exact H.
Qed.

Lemma for_loop_verse_numbers (els : list element) :
  forall elements found elements' found',
  for_loop els (elements, found) = Ok (elements', found') ->
  verse_numbers elements'
  = verse_numbers elements ++ implicit_number found els
    ++ map marker_number (filter has_marker (content_tags els)).
Proof.
  induction els as [|el els IH]; intros es f es' f' H.
  - inversion H; subst. unfold implicit_number. cbn.
    destruct f'; cbn; rewrite app_nil_r; reflexivity.
  - apply for_loop_cons in H as [[es1 f1] [Hb Hr]].
    apply IH in Hr. rewrite Hr. apply loop_body_inv in Hb.
    unfold implicit_number, content_tags. cbn [filter].
    destruct Hb as [[Hh [-> ->]] | [[Hh [Hm [-> ->]]] | [[Hh [Hm [-> [-> ->]]]]
             | [Hh [Hm [-> [-> [[-> _] | [l [n [t [-> ->]]]]]]]]]]]];
      rewrite Hh; cbn [negb filter]; rewrite ?Hm; cbn [map app];
      rewrite ?verse_numbers_app; cbn [verse_numbers flat_map app];
      rewrite ?app_nil_r; try reflexivity.
    + destruct f; rewrite <- app_assoc; reflexivity.
    + rewrite <- app_assoc. reflexivity.
Qed.

(** X10.  The verse numbers of the chapter, in order, are the stripped
    marker texts of the selected tags that are not headings and hold a
    marker, with ["1"] in front of them when the first tag that is not a
    heading holds no marker.  A tag without a marker gives no number
    anywhere else. *)
Theorem parse_chapter_verse_numbers (html : pystr) (verbose : bool)
        (stdout : list pystr) (elements : list Element) :
  fst (parse_chapter html verbose stdout) = Ok elements ->
  verse_numbers elements
  = match content_tags (select (BeautifulSoup html)) with
    | c :: _ => if has_marker c then [] else [py "1"]
    | [] => []
    end
    ++ map marker_number
         (filter has_marker (content_tags (select (BeautifulSoup html)))).
Proof.
  intros H. apply parse_chapter_run in H as [f H].
  apply for_loop_verse_numbers in H. exact H.
Qed.

Lemma verse_numbers_nil (es : list Element) :
  verse_numbers es = [] <-> existsb is_verse es = false.
Proof.
  induction es as [|e es IH]; [simpl; tauto|].
  destruct e; cbn [verse_numbers flat_map existsb is_verse app orb].
  - exact IH.
  - split; intros H; discriminate H.
Qed.

(** X11.  The chapter holds a verse exactly when the selector found a tag
    that is not a heading: the first such tag always starts a verse. *)
Theorem parse_chapter_has_verse (html : pystr) (verbose : bool)
        (stdout : list pystr) (elements : list Element) :
  fst (parse_chapter html verbose stdout) = Ok elements ->
  existsb is_verse elements = true
  <-> content_tags (select (BeautifulSoup html)) <> [].
Proof.
  intros H. apply parse_chapter_verse_numbers in H.
  rewrite <- not_false_iff_true, <- verse_numbers_nil, H.
  destruct (content_tags (select (BeautifulSoup html))) as [|c cs].
  - simpl. split; [intros F; exfalso; apply F; reflexivity | intros F; congruence].
  - split; [intros _; discriminate|]. intros _.
    cbn [filter]. destruct (has_marker c); cbn [map app]; discriminate.
Qed.

End RunFacts.

Section StabilityFacts.

Context {lib : Library}.

Lemma firstn_pred_app {A : Type} (l : list A) (x : A) :
  firstn (length l) (l ++ [x]) = l.
Proof.
  rewrite firstn_app, Nat.sub_diag, firstn_all. simpl. apply app_nil_r.
Qed.

Lemma loop_body_prefix (elements elements' : list Element) (found found' : bool)
      (el : element) :
  loop_body (elements, found) el = Ok (elements', found') ->
  (length elements <= length elements')%nat
  /\ firstn (length elements - 1) elements'
     = firstn (length elements - 1) elements.
Proof.
  intros H. apply loop_body_inv in H.
  assert (Happ : forall x : Element,
             (length elements <= length (elements ++ [x]))%nat
             /\ firstn (length elements - 1) (elements ++ [x])
                = firstn (length elements - 1) elements).
  { intros x. rewrite length_app. split; [lia|].
    rewrite firstn_app.
    replace (length elements - 1 - length elements)%nat with 0%nat by lia.
    simpl. apply app_nil_r. }
  destruct H as [[_ [-> _]] | [[_ [_ [-> _]]] | [[_ [_ [_ [-> _]]]]
           | [_ [_ [_ [_ [[-> _] | [l [n [t [-> ->]]]]]]]]]]]];
    try apply Happ.
  - split; [lia | reflexivity].
  - rewrite !length_app. simpl. split; [lia|].
    replace (length l + 1 - 1)%nat with (length l) by lia.
    rewrite !firstn_pred_app. reflexivity.
Qed.

Lemma for_loop_prefix (els : list element) :
  forall elements found elements' found',
  for_loop els (elements, found) = Ok (elements', found') ->
  (length elements <= length elements')%nat
  /\ firstn (length elements - 1) elements'
     = firstn (length elements - 1) elements.
Proof.
  induction els as [|el els IH]; intros es f es' f' H.
  - inversion H. split; [lia | reflexivity].
  - apply for_loop_cons in H as [[es1 f1] [Hb Hr]].
    apply loop_body_prefix in Hb as [Hl1 Hp1].
    apply IH in Hr as [Hl2 Hp2]. split; [lia|].
    rewrite <- Hp1.
    replace (length es - 1)%nat
      with (Nat.min (length es - 1) (length es1 - 1)) by lia.
    rewrite <- !firstn_firstn. rewrite Hp2. reflexivity.
Qed.

(** X12.  What the loop has built after any number of tags stays: in the
    chapter returned, every element but the last one built so far is the
    same, and that last one has the same kind and verse number, with at
    most more text. *)
Theorem elements_built_are_final (html : pystr) (verbose : bool)
        (stdout : list pystr) (done rest : list element)
        (built elements : list Element) (found : bool) :
  select (BeautifulSoup html) = done ++ rest ->
  for_loop done ([], false) = Ok (built, found) ->
  fst (parse_chapter html verbose stdout) = Ok elements ->
  (length built <= length elements)%nat
  /\ firstn (length built - 1) elements = firstn (length built - 1) built
  /\ forall i e, nth_error built i = Some e ->
                 exists t, nth_error elements i = Some (append_text t e).
Proof.
  intros Hsel Hdone H. apply parse_chapter_run in H as [f H].
  rewrite Hsel, for_loop_app, Hdone in H. cbn [bind] in H.
  destruct (for_loop_prefix _ _ _ _ _ H) as [H1 H2].
  destruct (for_loop_extends _ _ _ _ _ H) as [_ H3]. auto.
Qed.

(** X13.  An iteration leaves the sequence as it was in one case only: a
    tag that is not a heading and holds no marker, met with
    [first_verse_found] set when the sequence is empty or ends with a
    subtitle.  A heading, a tag with a marker and a continuation of a
    verse always show in the sequence. *)
Theorem unchanged_only_when_dropped (elements : list Element)
        (found found' : bool) (el : element) :
  loop_body (elements, found) el = Ok (elements, found') ->
  is_heading_tag el = false /\ has_marker el = false /\ found = true
  /\ (elements = [] \/ exists l s, elements = l ++ [Subtitle s]).
Proof.
  intros H. apply loop_body_inv in H.
  assert (Happ : forall x : Element, elements = elements ++ [x] -> False).
  { intros x Hx. apply (f_equal (@length Element)) in Hx.
    rewrite length_app in Hx. simpl in Hx. lia. }
  destruct H as [[_ [H _]] | [[_ [_ [H _]]] | [[_ [_ [_ [H _]]]]
           | [Hh [Hm [-> [_ [[_ H] | [l [n [t [H1 H2]]]]]]]]]]]];
    try (exfalso; exact (Happ _ H)).
  - auto.
  - exfalso. rewrite H1 in H2. apply app_inv_head in H2.
    inversion H2 as [Ht]. apply (f_equal (@length N)) in Ht.
    rewrite length_app in Ht. simpl in Ht. lia.
Qed.


End StabilityFacts.

(** ** Further facts: the fetch and the command line *)


Lemma fetch_html_requests_once_aux (w : World) (reference version : pystr)
      (filename : option pystr) (verbose : bool) :
  filename = None \/ filename = Some [] ->
  fst (fst (fetch_html w reference version filename verbose)) <> Uncaught
  /\ snd (fetch_html w reference version filename verbose)
     = [mk_request passage_url
                   [(py "search", reference); (py "version", version);
                    (py "interface", py "print")]
                   (30, 10)].
Proof.
  intros [-> | ->]; cbn [fetch_html fst snd];
    (split; [|reflexivity]);
    (destruct (requests_get w _) as [e | r];
     [discriminate | destruct (is_error_status (status_code r)); discriminate]).
Qed.

(** X15.  With a file name that is not empty [fetch_html] reads the file
    and nothing else: it makes no request, it returns the content of the
    file or lets the exception of [open] through, and neither the
    network nor the reference and the version change what it does. *)
Theorem fetch_html_reads_the_file (w w' : World)
        (reference reference' version version' name : pystr) (verbose : bool) :
  name <> [] ->
  read_file w' name = read_file w name ->
  fetch_html w reference version (Some name) verbose
  = fetch_html w' reference' version' (Some name) verbose
  /\ snd (fetch_html w reference version (Some name) verbose) = []
  /\ fst (fst (fetch_html w reference version (Some name) verbose))
     = match read_file w name with
       | Some content => Returned content
       | None => Uncaught
       end.
Proof.
  intros Hne Hread. destruct name as [|c name]; [congruence|].
  cbn [fetch_html]. rewrite Hread. repeat split; reflexivity.
Qed.

(** X16.  Without a file name, [None] or the empty string, [fetch_html]
    makes exactly one request: to the passage address, with the
    parameters [search], [version] and [interface=print] and the timeouts
    30 and 10.  It returns the text of the response when the status is
    not between 400 and 599, and otherwise leaves through [sys.exit] with
    a message that starts with [Error fetching data: ]; no exception of
    the request goes through. *)
Theorem fetch_html_requests_once (w : World) (reference version : pystr)
        (filename : option pystr) (verbose : bool) :
  filename = None \/ filename = Some [] ->
  let request :=
    mk_request passage_url
               [(py "search", reference); (py "version", version);
                (py "interface", py "print")]
               (30, 10) in
  let run := fetch_html w reference version filename verbose in
  snd run = [request]
  /\ fst (fst run) <> Uncaught
  /\ (forall content,
        fst (fst run) = Returned content
        <-> exists response,
              requests_get w request = inr response
              /\ is_error_status (status_code response) = false
              /\ response_text response = content)
  /\ (forall message,
        fst (fst run) = SystemExit message ->
        startswith (py "Error fetching data: ") message = true).
Proof.
  intros Hf request run.
  assert (Hrun : run
            = (match requests_get w request with
               | inr response =>
                   if is_error_status (status_code response)
                   then SystemExit (py "Error fetching data: "
                                       ++ http_error w request response)
                   else Returned (response_text response)
               | inl error => SystemExit (py "Error fetching data: " ++ error)
               end,
               if verbose
               then [py "Fetching " ++ passage_url ++ py " with params: "
                        ++ repr_params w (req_params request)]
               else [],
               [request])).
  { subst run. destruct Hf as [-> | ->]; reflexivity. }
  rewrite Hrun. cbn [fst snd]. split; [reflexivity|].
  destruct (requests_get w request) as [error | response].
  - split; [discriminate|]. split.
    + intros content. split; [discriminate|].
      intros [r [Hr _]]. discriminate.
    + intros message H. injection H as <-. reflexivity.
  - destruct (is_error_status (status_code response)) eqn:E.
    + split; [discriminate|]. split.
      * intros content. split; [discriminate|].
        intros [r [Hr [Hs _]]]. inversion Hr; subst. congruence.
      * intros message H. injection H as <-. reflexivity.
    + split; [discriminate|]. split.
      * intros content. split.
        -- intros H. inversion H. eauto.
        -- intros [r [Hr [_ Ht]]]. inversion Hr; subst. reflexivity.
      * intros message H. discriminate.
Qed.

Section MainFacts.

Context {lib : Library} {errors : ParserErrors}.



End MainFacts.

(** ** The further facts on the examples *)

Lemma unnumbered_chapter_parsed :
  fst (Bs4.parse_chapter unnumbered_passage false []) = Ok unnumbered_chapter.
Proof. vm_compute. reflexivity. Qed.

Lemma parse_chapter_length_witness :
  fst (Bs4.parse_chapter unnumbered_passage false []) = Ok unnumbered_chapter
  /\ (length unnumbered_chapter <= length (selected unnumbered_passage))%nat.
Proof.
  split; [exact unnumbered_chapter_parsed|].
  exact (parse_chapter_length (lib := Bs4.library) _ _ _ _
           unnumbered_chapter_parsed).
Defined.

Lemma parse_chapter_subtitles_witness :
  fst (Bs4.parse_chapter unnumbered_passage false []) = Ok unnumbered_chapter
  /\ subtitles unnumbered_chapter
     = map (fun h => Subtitle (Bs4.clean_text (Bs4.node_str (el_node h))))
           (heading_tags (selected unnumbered_passage))
  /\ subtitles unnumbered_chapter = [Subtitle (py "Heading")].
Proof.
  split; [exact unnumbered_chapter_parsed|]. split; [|reflexivity].
  exact (parse_chapter_subtitles (lib := Bs4.library) _ _ _ _
           unnumbered_chapter_parsed).
Defined.

Lemma parse_chapter_verse_numbers_witness :
  fst (Bs4.parse_chapter unnumbered_passage false []) = Ok unnumbered_chapter
  /\ verse_numbers unnumbered_chapter
     = match content_tags (selected unnumbered_passage) with
       | c :: _ => if has_marker c then [] else [py "1"]
       | [] => []
       end
       ++ map marker_number
            (filter has_marker (content_tags (selected unnumbered_passage)))
  /\ verse_numbers unnumbered_chapter = [py "1"; py "1"].
Proof.
  split; [exact unnumbered_chapter_parsed|]. split; [|reflexivity].
  exact (parse_chapter_verse_numbers (lib := Bs4.library) _ _ _ _
           unnumbered_chapter_parsed).
Defined.

Lemma parse_chapter_has_verse_witness :
  fst (Bs4.parse_chapter unnumbered_passage false []) = Ok unnumbered_chapter
  /\ (existsb is_verse unnumbered_chapter = true
      <-> content_tags (selected unnumbered_passage) <> []).
Proof.
  split; [exact unnumbered_chapter_parsed|].
  exact (parse_chapter_has_verse (lib := Bs4.library) _ _ _ _
           unnumbered_chapter_parsed).
Defined.

Lemma elements_built_are_final_witness :
  selected unnumbered_passage
  = firstn 2 (selected unnumbered_passage)
    ++ skipn 2 (selected unnumbered_passage)
  /\ @for_loop Bs4.library (firstn 2 (selected unnumbered_passage)) ([], false)
     = Ok ([Subtitle (py "Heading"); Verse (py "1") (py "In the beginning")],
           true)
  /\ firstn 1 unnumbered_chapter = [Subtitle (py "Heading")]
  /\ exists t, nth_error unnumbered_chapter 1
               = Some (Verse (py "1") (py "In the beginning" ++ t)).
Proof.
  assert (Hsel : selected unnumbered_passage
                 = firstn 2 (selected unnumbered_passage)
                   ++ skipn 2 (selected unnumbered_passage))
    by (symmetry; apply firstn_skipn).
  assert (Hdone : @for_loop Bs4.library
                    (firstn 2 (selected unnumbered_passage)) ([], false)
                  = Ok ([Subtitle (py "Heading");
                         Verse (py "1") (py "In the beginning")], true))
    by (vm_compute; reflexivity).
  split; [exact Hsel|]. split; [exact Hdone|].
  destruct (elements_built_are_final (lib := Bs4.library)
              unnumbered_passage false [] _ _ _ _ _
              Hsel Hdone unnumbered_chapter_parsed) as [_ [H2 H3]].
  split; [exact H2|].
  exact (H3 1%nat (Verse (py "1") (py "In the beginning")) eq_refl).
Defined.

Lemma unchanged_only_when_dropped_witness :
  Bs4.loop_body ([Verse (py "3") (py "Then"); Subtitle (py "Heading")], true)
                (selected_at continued_passage 1)
  = Ok ([Verse (py "3") (py "Then"); Subtitle (py "Heading")], true)
  /\ is_heading_tag (selected_at continued_passage 1) = false
  /\ has_marker (selected_at continued_passage 1) = false.
Proof.
  assert (H : Bs4.loop_body
                ([Verse (py "3") (py "Then"); Subtitle (py "Heading")], true)
                (selected_at continued_passage 1)
              = Ok ([Verse (py "3") (py "Then"); Subtitle (py "Heading")],
                    true)) by (vm_compute; reflexivity).
  split; [exact H|].
  destruct (unchanged_only_when_dropped (lib := Bs4.library)
              [Verse (py "3") (py "Then"); Subtitle (py "Heading")]
              true true (selected_at continued_passage 1) H)
    as [H1 [H2 _]].
  split; [exact H1 | exact H2].
Defined.


Lemma fetch_html_reads_the_file_witness :
  py "john1.html" <> []
  /\ fetch_html example_world (py "John 1") DEFAULT_VERSION
                (Some (py "john1.html")) false
     = fetch_html example_world_online (py "Psalm 3") (py "KJV")
                  (Some (py "john1.html")) false
  /\ fetch_html example_world (py "John 1") DEFAULT_VERSION
                (Some (py "john1.html")) false
     = (Returned scenario_passage, [], []).
Proof.
  assert (Hne : py "john1.html" <> []) by discriminate.
  split; [exact Hne|].
  destruct (fetch_html_reads_the_file example_world example_world_online
              (py "John 1") (py "Psalm 3") DEFAULT_VERSION (py "KJV")
              (py "john1.html") false Hne eq_refl) as [H _].
  split; [exact H | reflexivity].
Defined.

Lemma fetch_html_requests_once_witness :
  snd (fetch_html example_world (py "John 1") DEFAULT_VERSION None false)
  = [mk_request passage_url
                [(py "search", py "John 1"); (py "version", py "NKJV");
                 (py "interface", py "print")]
                (30, 10)]
  /\ fst (fst (fetch_html example_world (py "John 1") DEFAULT_VERSION
                          None false))
     = SystemExit (py "Error fetching data: connection refused")
  /\ fst (fst (fetch_html example_world_online (py "John 1") DEFAULT_VERSION
                          (Some []) false))
     = Returned scenario_fragment.
Proof.
  destruct (fetch_html_requests_once example_world (py "John 1")
              DEFAULT_VERSION None false (or_introl eq_refl)) as [H _].
  split; [exact H|]. split; reflexivity.
Defined.

